(** * A shallow embedding of the blog API's server core

    The development follows the server sources file by file:
    - [Js]: the JavaScript values, completions and string primitives the
      handlers rely on;
    - [AuthUtils]: [server/src/utils/auth.js];
    - [AuthMiddleware]: [server/src/middleware/auth.js];
    - [ErrorHandler]: [server/src/middleware/errorHandler.js];
    - [PostModel]: the slug derivation of [server/src/models/Post.js];
    - [PostsController]: [server/src/controllers/postsController.js];
    - [MemDb]: an in-memory Post collection behind the controller;
    - [Jsonwebtoken]: the checks that jsonwebtoken's [verify] makes on a
      token, over jws's codec and signature check.

    The libraries the handlers call (jsonwebtoken, bcryptjs, Mongoose) are
    Section variables, so the theorems hold for whatever they return or
    throw; [Sample] has small concrete instances of them. *)

From stdpp Require Import gmap strings pretty list fin_maps.
From Stdlib Require Import ZArith Ascii String Bool Lia.

Open Scope string_scope.
Open Scope Z_scope.
Set Warnings "-register-all".

(* ===================================================================== *)
(** ** JavaScript values and completions *)
(* ===================================================================== *)

Module Js.

(** JSON-like values. Numbers are the integers (status codes, error codes,
    timestamps); an object keeps its keys in insertion order, as
    [Object.keys] reports them. *)
Inductive value : Type :=
| VUndefined
| VNull
| VBool (b : bool)
| VNum (n : Z)
| VStr (s : string)
| VArr (items : list value)
| VObj (fields : list (string * value)).

(** The fields of an error object that the handlers read. A field that the
    object does not carry is [VUndefined] (or [None] for the two
    object-valued ones). *)
Record JsError : Type := mkJsError {
  name : value;
  message : value;
  stack : value;
  code : value;
  statusCode : value;
  keyPattern : option (list (string * value));
  errors : option (list (string * value))
}.

(** How a call ends: with a value, or by throwing (for an [async] function:
    by resolving, or by rejecting). *)
Inductive completion (A : Type) : Type :=
| Returns (a : A)
| Throws (e : JsError).
Arguments Returns {A} a.
Arguments Throws {A} e.

Definition bind {A B : Type} (m : completion A) (k : A -> completion B)
  : completion B :=
  match m with
  | Returns a => k a
  | Throws e => Throws e
  end.

(** [try { m } catch (error) { h error }] *)
Definition try_catch {A : Type} (m : completion A) (h : JsError -> completion A)
  : completion A :=
  match m with
  | Returns a => Returns a
  | Throws e => h e
  end.

(** stdpp's monad notation [x ← m; k] for sequencing calls that may throw. *)
#[global] Instance completion_ret : MRet completion := @Returns.
#[global] Instance completion_bind : MBind completion :=
  fun A B k m => bind m k.

(** [new Error(msg)] and its subclasses: only the first line of the stack is
    kept, the frames below it do not depend on the program's data. *)
Definition new_error (kind msg : string) : JsError :=
  {| name := VStr kind;
     message := VStr msg;
     stack := VStr (kind ++ ": " ++ msg);
     code := VUndefined;
     statusCode := VUndefined;
     keyPattern := None;
     errors := None |}.

Definition Error (msg : string) : JsError := new_error "Error" msg.
Definition TypeError (msg : string) : JsError := new_error "TypeError" msg.

(** [typeof v] *)
Definition typeof (v : value) : string :=
  match v with
  | VUndefined => "undefined"
  | VNull => "object"
  | VBool _ => "boolean"
  | VNum _ => "number"
  | VStr _ => "string"
  | VArr _ => "object"
  | VObj _ => "object"
  end.

(** JavaScript truthiness: what [!v], [v || d] and [v && w] test. *)
Definition truthy (v : value) : bool :=
  match v with
  | VUndefined | VNull => false
  | VBool b => b
  | VNum n => negb (n =? 0)
  | VStr s => negb (s =? "")%string
  | VArr _ | VObj _ => true
  end.

(** [v || d] *)
Definition or_else (v d : value) : value := if truthy v then v else d.

(** [v === 'lit'] *)
Definition is_str (v : value) (lit : string) : bool :=
  match v with
  | VStr s => (s =? lit)%string
  | _ => false
  end.

(** [v === n] for a numeric literal *)
Definition is_num (v : value) (n : Z) : bool :=
  match v with
  | VNum m => m =? n
  | _ => false
  end.

(** Lookup in an object's own fields. *)
Fixpoint field (k : string) (fs : list (string * value)) : option value :=
  match fs with
  | [] => None
  | (k', v) :: rest => if (k' =? k)%string then Some v else field k rest
  end.

Definition of_option (o : option value) : value :=
  match o with
  | Some v => v
  | None => VUndefined
  end.

(** [v.k]: reading a property of [undefined] or [null] throws, a missing
    property reads as [undefined]. Only own data properties are modelled. *)
Definition get_prop (v : value) (k : string) : completion value :=
  match v with
  | VUndefined =>
      Throws (TypeError ("Cannot read properties of undefined (reading '" ++ k ++ "')"))
  | VNull =>
      Throws (TypeError ("Cannot read properties of null (reading '" ++ k ++ "')"))
  | VObj fs => Returns (of_option (field k fs))
  | _ => Returns VUndefined
  end.

(** [Object.keys(o)] and [Object.values(o)] of an object-valued error field:
    both throw when the field is missing. *)
Definition object_keys (o : option (list (string * value))) : completion (list string) :=
  match o with
  | Some fs => Returns (map fst fs)
  | None => Throws (TypeError "Cannot convert undefined or null to object")
  end.

Definition object_values (o : option (list (string * value))) : completion (list value) :=
  match o with
  | Some fs => Returns (map snd fs)
  | None => Throws (TypeError "Cannot convert undefined or null to object")
  end.

(** [s.startsWith(p)] *)
Definition startsWith (s p : string) : bool := String.prefix p s.

(** [s.split(sep)] for a one-character separator. *)
Fixpoint split (sep : ascii) (s : string) : list string :=
  match s with
  | EmptyString => [""]
  | String c rest =>
      if Ascii.eqb c sep then "" :: split sep rest
      else match split sep rest with
           | [] => [String c ""]
           | w :: ws => String c w :: ws
           end
  end.

(** [s.includes(c)] for one character. *)
Fixpoint includes_char (c : ascii) (s : string) : bool :=
  match s with
  | EmptyString => false
  | String c' rest => Ascii.eqb c' c || includes_char c rest
  end.

(** [xs[i]] on an array of strings: [undefined] out of range. *)
Definition index (xs : list string) (i : nat) : value :=
  match nth_error xs i with
  | Some s => VStr s
  | None => VUndefined
  end.

(** [xs.map(f)] for a callback that may throw. *)
Fixpoint map_m {A B : Type} (f : A -> completion B) (xs : list A)
  : completion (list B) :=
  match xs with
  | [] => Returns []
  | x :: rest =>
      y ← f x;
      ys ← map_m f rest;
      Returns (y :: ys)
  end.

(** A template literal's rendering of a key or of [undefined]. *)
Definition template (v : value) : string :=
  match v with
  | VStr s => s
  | _ => "undefined"
  end.

(** [String(v)], for the values JavaScript prints as written here:
    [undefined], [null], booleans, strings, the integers below 10^21 in
    size (larger numbers are printed with an exponent), and arrays and
    objects of these that carry no [toString] of their own. *)
Fixpoint to_string (v : value) : string :=
  match v with
  | VUndefined => "undefined"
  | VNull => "null"
  | VBool b => if b then "true" else "false"
  | VNum n => pretty n
  | VStr s => s
  | VArr items =>
      String.concat ","
        (map (fun x => match x with
                       | VUndefined | VNull => ""
                       | _ => to_string x
                       end) items)
  | VObj _ => "[object Object]"
  end.

(** [v.toString()]: there is no such method on [undefined] or [null]; on
    the other values it is the inherited method, as for [to_string]. *)
Definition call_toString (v : value) : completion string :=
  match v with
  | VUndefined =>
      Throws (TypeError "Cannot read properties of undefined (reading 'toString')")
  | VNull =>
      Throws (TypeError "Cannot read properties of null (reading 'toString')")
  | _ => Returns (to_string v)
  end.

(** The primitive values that [to_string] prints digit for digit as
    JavaScript does: strings, booleans and the safe integers
    ([Number.MIN_SAFE_INTEGER] to [Number.MAX_SAFE_INTEGER]). *)
Definition prints_in_full (v : value) : bool :=
  match v with
  | VStr _ | VBool _ => true
  | VNum n => Z.abs n <? 2 ^ 53
  | _ => false
  end.

(** [process.env], the three variables the server reads. *)
Record Env : Type := mkEnv {
  JWT_SECRET : option string;
  JWT_EXPIRE : option string;
  NODE_ENV : option string
}.

Definition env_value (o : option string) : value :=
  match o with
  | Some s => VStr s
  | None => VUndefined
  end.

End Js.

(* ===================================================================== *)
(** ** server/src/utils/auth.js *)
(* ===================================================================== *)

Module AuthUtils.
Import Js.

Section AuthUtils.

(** [process.env] at the time of the call. *)
Variable env : Env.

(** jsonwebtoken: [jwt.sign(payload, secret, { expiresIn })] returns the
    compact token or throws. *)
Variable jwt_sign : value -> value -> value -> completion string.

(** jsonwebtoken: [jwt.verify(token, secret)] at clock time [now] returns
    the decoded payload or throws one of the library's errors
    (JsonWebTokenError, TokenExpiredError, NotBeforeError). *)
Variable jwt_verify : Z -> value -> value -> completion value.

(** bcryptjs: [bcrypt.hash(s, salt)], the digest of [s] under [salt], or an
    error for a salt the library cannot read. *)
Variable bcrypt_hash : string -> string -> completion string.

(** [generateToken(user)] *)
Definition generateToken (user : value) : completion string :=
  id ← get_prop user "_id";
  email ← get_prop user "email";
  jwt_sign (VObj [("id", id); ("email", email)])
           (env_value (JWT_SECRET env))
           (or_else (env_value (JWT_EXPIRE env)) (VStr "24h")).

(** [verifyToken(token)], called at clock time [now]. *)
Definition verifyToken (now : Z) (token : value) : completion value :=
  try_catch (jwt_verify now token (env_value (JWT_SECRET env)))
            (fun _ => Throws (Error "Invalid token")).

(** bcryptjs's [compare(s, hash)] in its promise form: both arguments must
    be strings, a hash that is not 60 characters long cannot match, and
    otherwise [s] is hashed under the salt the hash starts with (its first
    29 characters) and the two digests are compared. *)
Definition bcrypt_compare (s hash : value) : completion bool :=
  match s, hash with
  | VStr s', VStr h =>
      if negb (Nat.eqb (String.length h) 60) then Returns false
      else
        comp ← bcrypt_hash s' (substring 0 29 h);
        Returns (comp =? h)%string
  | _, _ =>
      Throws (Error ("Illegal arguments: " ++ typeof s ++ ", " ++ typeof hash))
  end.

(** [comparePassword(password, hash)] *)
Definition comparePassword (password hash : value) : completion bool :=
  bcrypt_compare password hash.

End AuthUtils.

(** The errors jsonwebtoken throws for the three causes of a failed
    verification. *)
Definition jwt_malformed : JsError := new_error "JsonWebTokenError" "jwt malformed".
Definition jwt_invalid_signature : JsError :=
  new_error "JsonWebTokenError" "invalid signature".
Definition jwt_expired : JsError := new_error "TokenExpiredError" "jwt expired".

End AuthUtils.

(* ===================================================================== *)
(** ** Requests and what a handler does with them *)
(* ===================================================================== *)

Module Http.
Import Js.

(** A user document, as [User.findById] resolves it. [user_id] is the
    document's [id] (the hexadecimal string of its [_id]); [password] is
    the stored hash, [None] once a projection has dropped it. *)
Record User : Type := mkUser {
  user_id : string;
  username : string;
  user_email : string;
  role : string;
  password : option string
}.

(** The parts of an Express request the handlers read: the Authorization
    header, the route parameter [id], the parsed JSON body, what
    [validationResult(req).array()] reports, and [req.user]. *)
Record Request : Type := mkRequest {
  authorization : option string;
  params_id : string;
  body : list (string * value);
  validation_errors : list value;
  user : option User
}.

Definition set_user (req : Request) (u : User) : Request :=
  {| authorization := authorization req;
     params_id := params_id req;
     body := body req;
     validation_errors := validation_errors req;
     user := Some u |}.

(** A handler either answers ([res.status(s).json(b)]), or passes the
    request on ([next()]), or passes an error on ([next(error)]). *)
Inductive Handled : Type :=
| Respond (status : value) (json : value)
| Next (req : Request)
| NextError (e : JsError).

(** [{ error: msg }] *)
Definition error_body (msg : string) : value := VObj [("error", VStr msg)].

End Http.

(* ===================================================================== *)
(** ** server/src/middleware/auth.js *)
(* ===================================================================== *)

Module AuthMiddleware.
Import Js Http.

(** The calls [protect] makes to the token verifier and to the user store,
    in order. *)
Inductive Call : Type :=
| CallVerifyToken (token : value)
| CallFindById (id : value).

(** A computation together with the calls it made before it ended. *)
Inductive Traced (A : Type) : Type :=
| Tr (calls : list Call) (result : completion A).
Arguments Tr {A} calls result.

Definition calls_of {A : Type} (t : Traced A) : list Call :=
  match t with Tr cs _ => cs end.

Definition result_of {A : Type} (t : Traced A) : completion A :=
  match t with Tr _ r => r end.

#[global] Instance traced_ret : MRet Traced := fun A a => Tr [] (Returns a).
#[global] Instance traced_bind : MBind Traced :=
  fun A B k m =>
    match m with
    | Tr cs (Returns a) =>
        match k a with Tr cs' r => Tr (cs ++ cs') r end
    | Tr cs (Throws e) => Tr cs (Throws e)
    end.

(** A call to a collaborator, recorded. *)
Definition call {A : Type} (c : Call) (r : completion A) : Traced A := Tr [c] r.

(** A step that calls no collaborator. *)
Definition pure_step {A : Type} (r : completion A) : Traced A := Tr [] r.

(** [try { m } catch (error) { h error }] around a traced computation. *)
Definition traced_catch {A : Type} (m : Traced A) (h : JsError -> A) : Traced A :=
  match m with
  | Tr cs (Returns a) => Tr cs (Returns a)
  | Tr cs (Throws e) => Tr cs (Returns (h e))
  end.

Definition not_authorized : value := error_body "Not authorized to access this route".
Definition user_not_found : value := error_body "User not found".

(** The answer to a request that carries no token: 401, and no call made. *)
Definition rejected : Traced Handled :=
  Tr [] (Returns (Respond (VNum 401) not_authorized)).

(** [.select('-password')] *)
Definition select_minus_password (u : User) : User :=
  {| user_id := user_id u;
     username := username u;
     user_email := user_email u;
     role := role u;
     password := None |}.

Section Protect.

(** [verifyToken] of utils/auth.js, at the time of the request. *)
Variable verifyToken : value -> completion value.

(** Mongoose: [User.findById(id)] resolves to the document or to [null],
    or rejects. *)
Variable User_findById : value -> completion (option User).

(** The token [protect] takes from the Authorization header: the second
    space-separated component of a header that starts with [Bearer],
    [undefined] otherwise. *)
Definition bearer_token (req : Request) : value :=
  match authorization req with
  | Some h =>
      if truthy (VStr h) && startsWith h "Bearer"
      then index (split " " h) 1
      else VUndefined
  | None => VUndefined
  end.

(** [protect(req, res, next)] *)
Definition protect (req : Request) : Traced Handled :=
  traced_catch
    (let token := bearer_token req in
     if negb (truthy token) then mret (Respond (VNum 401) not_authorized)
     else
       decoded ← call (CallVerifyToken token) (verifyToken token);
       id ← pure_step (get_prop decoded "id");
       found ← call (CallFindById id) (User_findById id);
       match found with
       | None => mret (Respond (VNum 401) user_not_found)
       | Some u => mret (Next (set_user req (select_minus_password u)))
       end)
    (fun _ => Respond (VNum 401) not_authorized).

End Protect.

(** [authorize(...roles)(req, res, next)]; reading the role of a missing
    [req.user] throws. *)
Definition authorize (roles : list string) (req : Request) : completion Handled :=
  match user req with
  | None => Throws (TypeError "Cannot read properties of undefined (reading 'role')")
  | Some u =>
      if negb (existsb (String.eqb (role u)) roles)
      then Returns (Respond (VNum 403)
             (error_body ("User role '" ++ role u
                          ++ "' is not authorized to access this route")))
      else Returns (Next req)
  end.

End AuthMiddleware.

(* ===================================================================== *)
(** ** server/src/middleware/errorHandler.js *)
(* ===================================================================== *)

Module ErrorHandler.
Import Js Http.

(** The parts of the request the handler logs. *)
Record RequestInfo : Type := mkRequestInfo {
  originalUrl : value;
  method : value;
  ip : value
}.

(** The record handed to [logger.error('Error:', ...)]. *)
Record LogRecord : Type := mkLogRecord {
  log_message : value;
  log_stack : value;
  log_url : value;
  log_method : value;
  log_ip : value
}.

(** [process.env.NODE_ENV === 'development'] *)
Definition development (env : Env) : bool :=
  is_str (env_value (NODE_ENV env)) "development".

(** [errorHandler(err, req, res, next)]: the record it hands to
    [logger.error], then what it answers. It throws where the source does:
    on [Object.keys] or [Object.values] of a missing field, and on the
    [message] of a null entry. *)
Definition errorHandler (env : Env) (err : JsError) (req : RequestInfo)
  : list LogRecord * completion Handled :=
  ([ {| log_message := message err;
        log_stack := stack err;
        log_url := originalUrl req;
        log_method := method req;
        log_ip := ip req |} ],
   if is_str (name err) "CastError" then
     Returns (Respond (VNum 400)
       (VObj [("error", VStr "Invalid ID format"); ("details", message err)]))
   else if is_num (code err) 11000 then
     keys ← object_keys (keyPattern err);
     let field := index keys 0 in
     Returns (Respond (VNum 400)
       (VObj [("error", VStr "Duplicate field value");
              ("details", VStr (template field ++ " already exists"))]))
   else if is_str (name err) "ValidationError" then
     entries ← object_values (errors err);
     messages ← map_m (fun e => get_prop e "message") entries;
     Returns (Respond (VNum 400)
       (VObj [("error", VStr "Validation error"); ("details", VArr messages)]))
   else if is_str (name err) "JsonWebTokenError" then
     Returns (Respond (VNum 401)
       (VObj [("error", VStr "Invalid token"); ("details", message err)]))
   else if is_str (name err) "TokenExpiredError" then
     Returns (Respond (VNum 401)
       (VObj [("error", VStr "Token expired"); ("details", message err)]))
   else
     let statusCode := or_else (statusCode err) (VNum 500) in
     Returns (Respond statusCode
       (VObj (("error", or_else (message err) (VStr "Server Error"))
              :: (if development env then [("stack", stack err)] else []))))).

(** *** The classification as the specification words it *)

(** The five shapes the specification lists before the default. *)
Inductive Shape : Type :=
| CastShape
| DuplicateKeyShape
| ValidationShape
| MalformedTokenShape
| ExpiredTokenShape.

Definition has_shape (err : JsError) (s : Shape) : bool :=
  match s with
  | CastShape => is_str (name err) "CastError"
  | DuplicateKeyShape => is_num (code err) 11000
  | ValidationShape => is_str (name err) "ValidationError"
  | MalformedTokenShape => is_str (name err) "JsonWebTokenError"
  | ExpiredTokenShape => is_str (name err) "TokenExpiredError"
  end.

(** "In this precedence order (first match wins)". *)
Definition precedence : list Shape :=
  [CastShape; DuplicateKeyShape; ValidationShape; MalformedTokenShape;
   ExpiredTokenShape].

Definition classify (err : JsError) : option Shape :=
  List.find (has_shape err) precedence.

(** The field of the conflicting key: the first key of the key pattern. *)
Definition conflicting_field (err : JsError) : string :=
  match keyPattern err with
  | Some ((k, _) :: _) => k
  | _ => "undefined"
  end.

(** The message of one field's failure. *)
Definition entry_message (e : value) : value :=
  match e with
  | VObj fs => of_option (field "message" fs)
  | _ => VUndefined
  end.

(** Each field's message, in the order of the errors object. *)
Definition field_messages (err : JsError) : list value :=
  match errors err with
  | Some fs => map (fun kv => entry_message (snd kv)) fs
  | None => []
  end.

(** The response the specification assigns to a class; [None] is the
    default, rule 6. *)
Definition normalized (env : Env) (err : JsError) (class : option Shape) : Handled :=
  match class with
  | Some CastShape =>
      Respond (VNum 400)
        (VObj [("error", VStr "Invalid ID format"); ("details", message err)])
  | Some DuplicateKeyShape =>
      Respond (VNum 400)
        (VObj [("error", VStr "Duplicate field value");
               ("details", VStr (conflicting_field err ++ " already exists"))])
  | Some ValidationShape =>
      Respond (VNum 400)
        (VObj [("error", VStr "Validation error");
               ("details", VArr (field_messages err))])
  | Some MalformedTokenShape =>
      Respond (VNum 401)
        (VObj [("error", VStr "Invalid token"); ("details", message err)])
  | Some ExpiredTokenShape =>
      Respond (VNum 401)
        (VObj [("error", VStr "Token expired"); ("details", message err)])
  | None =>
      Respond (if truthy (statusCode err) then statusCode err else VNum 500)
        (VObj (("error", if truthy (message err) then message err
                         else VStr "Server Error")
               :: (if development env then [("stack", stack err)] else [])))
  end.

(** An entry of the errors object whose [message] can be read. *)
Definition readable (e : value) : bool :=
  match e with
  | VUndefined | VNull => false
  | _ => true
  end.

(** What the handler presumes of the two shapes that carry an object: a
    duplicate-key error has its key pattern, a validation error has its
    errors object and no null entry in it. *)
Definition well_shaped (err : JsError) : bool :=
  match classify err with
  | Some DuplicateKeyShape =>
      match keyPattern err with Some _ => true | None => false end
  | Some ValidationShape =>
      match errors err with
      | Some fs => forallb (fun kv => readable (snd kv)) fs
      | None => false
      end
  | _ => true
  end.

(** [err] with its stack replaced. *)
Definition with_stack (s : value) (err : JsError) : JsError :=
  {| name := name err;
     message := message err;
     stack := s;
     code := code err;
     statusCode := statusCode err;
     keyPattern := keyPattern err;
     errors := errors err |}.

End ErrorHandler.

(* ===================================================================== *)
(** ** server/src/models/Post.js: the slug *)
(* ===================================================================== *)

Module PostModel.

Definition is_upper (c : ascii) : bool :=
  (("A" <=? c) && (c <=? "Z"))%char.

Definition is_alphanumeric (c : ascii) : bool :=
  ((("a" <=? c) && (c <=? "z")) || (("0" <=? c) && (c <=? "9")))%char.

Definition lower (c : ascii) : ascii :=
  if is_upper c then ascii_of_nat (nat_of_ascii c + 32) else c.

(** [s.toLowerCase()] on the ASCII letters. *)
Fixpoint toLowerCase (s : string) : string :=
  match s with
  | EmptyString => EmptyString
  | String c rest => String (lower c) (toLowerCase rest)
  end.

(** Every run of non-alphanumeric characters becomes one hyphen;
    [in_run] says that the previous character was part of such a run. *)
Fixpoint collapse (in_run : bool) (s : string) : string :=
  match s with
  | EmptyString => EmptyString
  | String c rest =>
      if is_alphanumeric c then String c (collapse false rest)
      else if in_run then collapse true rest
      else String "-" (collapse true rest)
  end.

(** Modelled from the spec: server/src/models/Post.js (the schema and its
    pre-save hook) is not among the sources. The slug is the title
    "lowercase, non-alphanumeric runs collapsed to single hyphens". *)
Definition slugify (title : string) : string :=
  collapse false (toLowerCase title).

(** Modelled from the spec: the slug a Post gets when it is created: the
    one "explicitly supplied", otherwise the one "derived from title at
    creation time". *)
Definition slug_at_creation (title : string) (supplied : option string) : string :=
  match supplied with
  | Some s => s
  | None => slugify title
  end.

Definition is_slug_char (c : ascii) : bool :=
  is_alphanumeric c || Ascii.eqb c "-".

(** No two hyphens in a row; [after_hyphen] says that the previous
    character was one. *)
Fixpoint single_hyphens (after_hyphen : bool) (s : string) : bool :=
  match s with
  | EmptyString => true
  | String c rest =>
      if Ascii.eqb c "-" then negb after_hyphen && single_hyphens true rest
      else single_hyphens false rest
  end.

Fixpoint all_chars (p : ascii -> bool) (s : string) : bool :=
  match s with
  | EmptyString => true
  | String c rest => p c && all_chars p rest
  end.

Fixpoint keep_chars (p : ascii -> bool) (s : string) : string :=
  match s with
  | EmptyString => EmptyString
  | String c rest => if p c then String c (keep_chars p rest) else keep_chars p rest
  end.

End PostModel.

(* ===================================================================== *)
(** ** server/src/controllers/postsController.js *)
(* ===================================================================== *)

Module PostsController.
Import Js Http.

(** A stored document: its paths and their values. References
    ([_id], [author], [category]) are held as their hexadecimal strings. *)
Abbreviation Doc := (list (string * value)).

(** A database operation: it reads and possibly changes the database, and
    resolves or rejects. *)
Inductive Query (DB A : Type) : Type :=
| Run (run : DB -> completion A * DB).
Arguments Run {DB A} run.

Definition run {DB A : Type} (q : Query DB A) (db : DB) : completion A * DB :=
  match q with Run f => f db end.

#[global] Instance query_ret {DB : Type} : MRet (Query DB) :=
  fun A a => Run (fun db => (Returns a, db)).
#[global] Instance query_bind {DB : Type} : MBind (Query DB) :=
  fun A B k m =>
    Run (fun db =>
      match run m db with
      | (Returns a, db') => run (k a) db'
      | (Throws e, db') => (Throws e, db')
      end).

(** A step of the handler itself, which may throw. *)
Definition step {DB A : Type} (r : completion A) : Query DB A :=
  Run (fun db => (r, db)).

(** [try { m } catch (error) { next(error) }] around a handler body. *)
Definition catch_next {DB : Type} (m : Query DB Handled) (db : DB) : Handled * DB :=
  match run m db with
  | (Returns h, db') => (h, db')
  | (Throws e, db') => (NextError e, db')
  end.

(** [const { title, content, category, tags, published } = req.body] and the
    object [{ title, content, category, tags, published }] built from them:
    a key the body does not carry is [undefined]. *)
Definition update_document (body : list (string * value)) : Doc :=
  [("title", of_option (field "title" body));
   ("content", of_option (field "content" body));
   ("category", of_option (field "category" body));
   ("tags", of_option (field "tags" body));
   ("published", of_option (field "published" body))].


(** [errors.isEmpty()] *)
Definition isEmpty (errors : list value) : bool :=
  match errors with
  | [] => true
  | _ :: _ => false
  end.

(** [req.user], whose [id] and [role] the ownership check reads. *)
Definition requester (req : Request) : completion User :=
  match user req with
  | Some u => Returns u
  | None => Throws (TypeError "Cannot read properties of undefined (reading 'id')")
  end.

(** [post.author.toString() !== req.user.id && req.user.role !== 'admin'] *)
Definition forbidden (author_id : string) (u : User) : bool :=
  negb (author_id =? user_id u)%string && negb (role u =? "admin")%string.

Definition validation_failed (req : Request) : Handled :=
  Respond (VNum 400)
    (VObj [("error", VStr "Validation failed");
           ("details", VArr (validation_errors req))]).

Definition post_not_found : Handled :=
  Respond (VNum 404) (error_body "Post not found").

Definition post_deleted : Handled :=
  Respond (VNum 200)
    (VObj [("success", VBool true); ("message", VStr "Post deleted")]).

Section Handlers.

(** The state of the database. *)
Variable DB : Type.

(** Mongoose: [Post.findById(id)] resolves to the document or to [null],
    or rejects (a malformed id, a lost connection). *)
Variable Post_findById : string -> Query DB (option Doc).

(** Mongoose: [Post.findByIdAndUpdate(id, update, { new: true,
    runValidators: true }).populate('author', 'username email')] resolves
    to the updated, populated document ([null] when no document has the
    id), or rejects. *)
Variable Post_findByIdAndUpdate : string -> Doc -> Query DB value.

(** Mongoose: [post.deleteOne()]. *)
Variable Post_deleteOne : Doc -> Query DB unit.

(** [updatePost(req, res, next)] *)
Definition updatePost (req : Request) : DB -> Handled * DB :=
  catch_next
    (if negb (isEmpty (validation_errors req)) then
       mret (validation_failed req)
     else
       found ← Post_findById (params_id req);
       match found with
       | None => mret post_not_found
       | Some post =>
           author_id ← step (call_toString (of_option (field "author" post)));
           u ← step (requester req);
           if forbidden author_id u then
             mret (Respond (VNum 403) (error_body "Not authorized to update this post"))
           else
             updated ← Post_findByIdAndUpdate (params_id req)
                         (update_document (body req));
             mret (Respond (VNum 200) updated)
       end).

(** [deletePost(req, res, next)] *)
Definition deletePost (req : Request) : DB -> Handled * DB :=
  catch_next
    (found ← Post_findById (params_id req);
     match found with
     | None => mret post_not_found
     | Some post =>
         author_id ← step (call_toString (of_option (field "author" post)));
         u ← step (requester req);
         if forbidden author_id u then
           mret (Respond (VNum 403) (error_body "Not authorized to delete this post"))
         else
           _ ← Post_deleteOne post;
           mret post_deleted
     end).

(** Mongoose: [Post.findById(id).populate('author', 'username email')]
    resolves to the populated document or to [null], or rejects. *)
Variable Post_findById_populate : value -> Query DB value.

(** Mongoose: [Post.create(doc)] resolves to the created document, or
    rejects. *)
Variable Post_create : Doc -> Query DB value.

(** [getPost(req, res, next)] *)
Definition getPost (req : Request) : DB -> Handled * DB :=
  catch_next
    (post ← Post_findById_populate (VStr (params_id req));
     if negb (truthy post) then mret post_not_found
     else mret (Respond (VNum 200) post)).

(** [const { title, content, category, tags } = req.body] and the object
    [{ title, content, author: req.user.id, category, tags }] handed to
    [Post.create]. *)
Definition create_document (body : list (string * value)) (author_id : string) : Doc :=
  [("title", of_option (field "title" body));
   ("content", of_option (field "content" body));
   ("author", VStr author_id);
   ("category", of_option (field "category" body));
   ("tags", of_option (field "tags" body))].

(** [createPost(req, res, next)] *)
Definition createPost (req : Request) : DB -> Handled * DB :=
  catch_next
    (if negb (isEmpty (validation_errors req)) then
       mret (validation_failed req)
     else
       u ← step (requester req);
       post ← Post_create (create_document (body req) (user_id u));
       id ← step (get_prop post "_id");
       populatedPost ← Post_findById_populate id;
       mret (Respond (VNum 201) populatedPost)).

End Handlers.

(** The status a handler answered with, if it answered. *)
Definition status_of (h : Handled) : option value :=
  match h with
  | Respond s _ => Some s
  | _ => None
  end.

End PostsController.

(* ===================================================================== *)
(** ** An in-memory Post collection *)
(* ===================================================================== *)

Module MemDb.
Import Js Http PostsController.

(** The Post and User collections by [_id], and the time of the operation
    being run. *)
Record DB : Type := mkDB {
  posts : gmap string Doc;
  users : gmap string User;
  clock : Z
}.

Definition with_posts (ps : gmap string Doc) (db : DB) : DB :=
  {| posts := ps; users := users db; clock := clock db |}.

Definition is_hex (c : ascii) : bool :=
  ((("0" <=? c) && (c <=? "9")) || (("a" <=? c) && (c <=? "f"))
   || (("A" <=? c) && (c <=? "F")))%char.

(** An ObjectId in its string form: 24 hexadecimal digits. *)
Definition is_object_id (s : string) : bool :=
  Nat.eqb (String.length s) 24 && PostModel.all_chars is_hex s.

(** Mongoose's error for an id that is no ObjectId. *)
Definition cast_error (id : string) : JsError :=
  {| name := VStr "CastError";
     message := VStr ("Cast to ObjectId failed for value " ++ id);
     stack := VStr "CastError";
     code := VUndefined;
     statusCode := VUndefined;
     keyPattern := None;
     errors := None |}.

(** [$set] of one path. *)
Fixpoint set_field (k : string) (v : value) (doc : Doc) : Doc :=
  match doc with
  | [] => [(k, v)]
  | (k', v') :: rest =>
      if (k' =? k)%string then (k, v) :: rest
      else (k', v') :: set_field k v rest
  end.

(** Modelled from the spec: server/src/models/Post.js is not among the
    sources. The paths of the Post schema that an update may set: "title",
    "content", "a derived URL-safe slug", "optional category reference",
    "list of trimmed tag strings", "published flag", "author (reference to
    User, required)". The [_id] is immutable and the timestamps are kept
    by the store. *)
Definition schema_paths : list string :=
  ["title"; "content"; "slug"; "category"; "tags"; "published"; "author"].

Definition is_defined (v : value) : bool :=
  match v with
  | VUndefined => false
  | _ => true
  end.

(** Mongoose's reading of one entry of an update object: a defined value
    under a path of the schema is set, anything else is dropped. *)
Definition set_path (doc : Doc) (entry : string * value) : Doc :=
  if is_defined (snd entry) && existsb (String.eqb (fst entry)) schema_paths
  then set_field (fst entry) (snd entry) doc
  else doc.

Definition apply_update (update : Doc) (doc : Doc) : Doc :=
  fold_left set_path update doc.

(** The title of a document, when it is a string. *)
Definition title_of (doc : Doc) : option string :=
  match field "title" doc with
  | Some (VStr t) => Some t
  | _ => None
  end.

(** Modelled from the spec: "Invariant: slug is derived from title at
    creation time and regenerated whenever title changes, unless a slug was
    explicitly supplied and left untouched". [before] is the stored
    document and [after] the document with the paths of [update] set: when
    the title has changed and the update supplies no slug of its own, the
    slug is derived anew from the title. *)
Definition regenerate_slug (update before after : Doc) : Doc :=
  match title_of after with
  | Some t =>
      if bool_decide (title_of before = Some t) then after
      else if is_defined (of_option (field "slug" update)) then after
      else set_field "slug" (VStr (PostModel.slugify t)) after
  | None => after
  end.

(** Modelled from the spec: the Post schema has "creation/update
    timestamps", and its slug is "regenerated whenever title changes": a
    write through the model at time [now] sets the update's paths, keeps
    the slug in step with the title and refreshes [updatedAt]. *)
Definition write (update : Doc) (now : Z) (doc : Doc) : Doc :=
  set_field "updatedAt" (VNum now)
    (regenerate_slug update doc (apply_update update doc)).

(** [.populate('author', 'username email')] *)
Definition populate_author (us : gmap string User) (doc : Doc) : Doc :=
  match field "author" doc with
  | Some (VStr a) =>
      set_field "author"
        (match us !! a with
         | Some u => VObj [("_id", VStr (user_id u));
                           ("username", VStr (username u));
                           ("email", VStr (user_email u))]
         | None => VNull
         end) doc
  | _ => doc
  end.

Definition findById (id : string) : Query DB (option Doc) :=
  Run (fun db =>
    if is_object_id id then (Returns (posts db !! id), db)
    else (Throws (cast_error id), db)).

Section Update.

(** Mongoose's casting of the update to the schema's types and, under
    [runValidators], its validators: the error they raise, if any. *)
Variable rejects : Doc -> option JsError.

(** [findByIdAndUpdate] with [{ new: true }]: the stored document is
    replaced by the written one, which is also what the query resolves to,
    populated. *)
Definition findByIdAndUpdate (id : string) (update : Doc) : Query DB value :=
  Run (fun db =>
    if negb (is_object_id id) then (Throws (cast_error id), db)
    else
      match rejects update with
      | Some e => (Throws e, db)
      | None =>
          match posts db !! id with
          | None => (Returns VNull, db)
          | Some doc =>
              let doc' := write update (clock db) doc in
              (Returns (VObj (populate_author (users db) doc')),
               with_posts (<[id := doc']> (posts db)) db)
          end
      end).

End Update.

Definition deleteOne (doc : Doc) : Query DB unit :=
  Run (fun db =>
    match field "_id" doc with
    | Some (VStr id) => (Returns tt, with_posts (delete id (posts db)) db)
    | _ => (Returns tt, db)
    end).

(** The handlers over the in-memory collection. *)
Definition updatePost (rejects : Doc -> option JsError) (req : Request)
  : DB -> Handled * DB :=
  PostsController.updatePost DB findById (findByIdAndUpdate rejects) req.

Definition deletePost (req : Request) : DB -> Handled * DB :=
  PostsController.deletePost DB findById deleteOne req.

End MemDb.

(* ===================================================================== *)
(** ** server/src/routes/posts.js: the protected delete route *)
(* ===================================================================== *)

Module PostRoutes.
Import Js Http AuthMiddleware PostsController.

Section Routes.

Variable verifyToken : value -> completion value.
Variable User_findById : value -> completion (option User).
Variable DB : Type.
Variable Post_findById : string -> Query DB (option Doc).
Variable Post_deleteOne : Doc -> Query DB unit.

(** [router.delete('/:id', protect, postsController.deletePost)]: Express
    runs [deletePost] on the request [protect] passed to [next], and not at
    all when [protect] answered. The calls [protect] made come first. (A
    rejected [protect] would go to the error handlers; it never rejects.) *)
Definition delete_route (req : Request) (db : DB) : list Call * (Handled * DB) :=
  match protect verifyToken User_findById req with
  | Tr calls (Returns (Next req')) =>
      (calls, deletePost DB Post_findById Post_deleteOne req' db)
  | Tr calls (Returns answered) => (calls, (answered, db))
  | Tr calls (Throws e) => (calls, (NextError e, db))
  end.

End Routes.

End PostRoutes.

(* ===================================================================== *)
(** ** server/src/middleware/requestLogger.js *)
(* ===================================================================== *)

Module RequestLogger.
Import Js.

(** What the logger reads of the request: [req.method], [req.originalUrl],
    [req.ip] and [req.get('user-agent')]. *)
Record LoggedRequest : Type := mkLoggedRequest {
  method : value;
  originalUrl : value;
  ip : value;
  userAgent : value
}.

(** A call to [logger.info] or [logger.warn]. *)
Inductive LogCall : Type :=
| Info (label : string) (fields : list (string * value))
| Warn (label : string) (fields : list (string * value)).

(** The listener [requestLogger] registers with [res.on('finish', ...)]:
    [startTime] is [Date.now()] when the middleware ran, [now] is
    [Date.now()] when the response finished, [statusCode] is
    [res.statusCode]. *)
Definition on_finish (startTime : Z) (req : LoggedRequest)
    (statusCode : value) (now : Z) : list LogCall :=
  let duration := now - startTime in
  Info "Request"
    [("method", method req);
     ("url", originalUrl req);
     ("status", statusCode);
     ("duration", VStr (pretty duration ++ "ms"));
     ("ip", ip req);
     ("userAgent", userAgent req)]
  :: (if duration >? 1000 then
        [Warn "Slow request detected"
           [("method", method req);
            ("url", originalUrl req);
            ("duration", VStr (pretty duration ++ "ms"))]]
      else []).

(** [requestLogger(req, res, next)] at time [startTime]: it logs nothing
    itself, registers the listener and calls [next()]. *)
Definition requestLogger (startTime : Z) (req : LoggedRequest)
  : list LogCall * (value -> Z -> list LogCall) :=
  ([], on_finish startTime req).

Definition is_warn (c : LogCall) : bool :=
  match c with
  | Warn _ _ => true
  | Info _ _ => false
  end.

Definition fields_of (c : LogCall) : list (string * value) :=
  match c with
  | Info _ fs => fs
  | Warn _ fs => fs
  end.

End RequestLogger.

(* ===================================================================== *)
(** ** client/src/components/PostCard.jsx: truncateContent *)
(* ===================================================================== *)

Module PostCard.

(** [s.substring(0, n)]: a negative [n] counts as 0. *)
Definition substring_to (n : Z) (s : string) : string :=
  substring 0 (Z.to_nat n) s.

(** [truncateContent(content, maxLength = 150)] *)
Definition truncateContent (content : string) (maxLength : Z) : string :=
  if Z.of_nat (String.length content) <=? maxLength then content
  else substring_to maxLength content ++ "...".

Definition default_maxLength : Z := 150.

End PostCard.

(* ===================================================================== *)
(** ** client/src/components/Form.jsx *)
(* ===================================================================== *)

Module Form.

(** A field's [validation] object. [required] is a boolean; a message or a
    length that is not set is [None]; [pattern] is a regular expression
    without the [g] or [y] flag, so that [pattern.test] is a function of
    the string; [custom] returns the error text, empty for none. *)
Record Validation : Type := mkValidation {
  required : bool;
  requiredMessage : option string;
  minLength : option Z;
  minLengthMessage : option string;
  maxLength : option Z;
  maxLengthMessage : option string;
  pattern : option (string -> bool);
  patternMessage : option string;
  custom : option (string -> string)
}.

(** An entry of [fields]: its [name] and its [validation], if any. *)
Record Field : Type := mkField {
  name : string;
  validation : option Validation
}.

(** [message || fallback] *)
Definition message_or (message : option string) (fallback : string) : string :=
  match message with
  | Some m => if (m =? "")%string then fallback else m
  | None => fallback
  end.

(** A length limit that is set and not 0, as [validation.minLength && ...]
    tests it. *)
Definition limit (l : option Z) : option Z :=
  match l with
  | Some n => if n =? 0 then None else Some n
  | None => None
  end.

(** [validateField(name, value, validation)] *)
Definition validateField (name value : string) (validation : option Validation)
  : string :=
  match validation with
  | None => ""
  | Some v =>
      if required v && (value =? "")%string then
        message_or (requiredMessage v) "This field is required"
      else if match limit (minLength v) with
              | Some n => Z.of_nat (String.length value) <? n
              | None => false
              end then
        message_or (minLengthMessage v)
          ("Minimum " ++ pretty (default 0 (minLength v)) ++ " characters required")
      else if match limit (maxLength v) with
              | Some n => n <? Z.of_nat (String.length value)
              | None => false
              end then
        message_or (maxLengthMessage v)
          ("Maximum " ++ pretty (default 0 (maxLength v)) ++ " characters allowed")
      else if match pattern v with
              | Some test => negb (test value)
              | None => false
              end then
        message_or (patternMessage v) "Invalid format"
      else
        match custom v with
        | Some check => check value
        | None => ""
        end
  end.

(** What a [validation] object asks of a value. *)
Definition satisfies (v : Validation) (value : string) : Prop :=
  (required v = true -> value <> "")
  /\ (forall n, limit (minLength v) = Some n -> n <= Z.of_nat (String.length value))
  /\ (forall n, limit (maxLength v) = Some n -> Z.of_nat (String.length value) <= n)
  /\ (forall test, pattern v = Some test -> test value = true)
  /\ (forall check, custom v = Some check -> check value = "").

(** The component's state: [values], [errors] and [touched], objects keyed
    by field name. *)
Record State : Type := mkState {
  values : gmap string string;
  errors : gmap string string;
  touched : gmap string bool
}.

Definition initial : State :=
  {| values := ∅; errors := ∅; touched := ∅ |}.

(** [fields.find((f) => f.name === name)?.validation] *)
Definition validation_of (fields : list Field) (n : string) : option Validation :=
  match List.find (fun f => (name f =? n)%string) fields with
  | Some f => validation f
  | None => None
  end.

(** [touched[name]] as a condition. *)
Definition is_touched (st : State) (n : string) : bool :=
  default false (touched st !! n).

(** [handleChange(e)] with [e.target] = [{ name, value }]. *)
Definition handleChange (fields : list Field) (n value : string) (st : State) : State :=
  {| values := <[n := value]> (values st);
     errors :=
       if is_touched st n
       then <[n := validateField n value (validation_of fields n)]> (errors st)
       else errors st;
     touched := touched st |}.

(** [handleBlur(e)] with [e.target] = [{ name, value }]. *)
Definition handleBlur (fields : list Field) (n value : string) (st : State) : State :=
  {| values := values st;
     errors := <[n := validateField n value (validation_of fields n)]> (errors st);
     touched := <[n := true]> (touched st) |}.

(** [values[field.name] || ''] *)
Definition value_of (st : State) (n : string) : string :=
  default "" (values st !! n).

(** The [newErrors] object [handleSubmit] builds: the error of every field
    that has one. *)
Definition newErrors (fields : list Field) (st : State) : gmap string string :=
  fold_left
    (fun acc f =>
       let error := validateField (name f) (value_of st (name f)) (validation f) in
       if negb (error =? "")%string then <[name f := error]> acc else acc)
    fields ∅.

(** [fields.reduce((acc, field) => ({ ...acc, [field.name]: true }), {})] *)
Definition all_touched (fields : list Field) : gmap string bool :=
  fold_left (fun acc f => <[name f := true]> acc) fields ∅.

(** [handleSubmit(e)]: the new state, and the values handed to [onSubmit]
    when it is called. *)
Definition handleSubmit (fields : list Field) (st : State)
  : State * option (gmap string string) :=
  ({| values := values st;
      errors := newErrors fields st;
      touched := all_touched fields |},
   if bool_decide (newErrors fields st = ∅) then Some (values st) else None).

(** [Object.values(errors).some((error) => error)] *)
Definition hasErrors (st : State) : bool :=
  bool_decide (exists n e, errors st !! n = Some e /\ e <> "").

(** The submit button's [disabled]:
    [hasErrors && Object.keys(touched).length > 0]. *)
Definition submit_disabled (st : State) : bool :=
  hasErrors st && negb (bool_decide (touched st = ∅)).

(** What the user does to the form. *)
Inductive Event : Type :=
| Change (n value : string)
| Blur (n value : string)
| Submit.

Definition handle (fields : list Field) (st : State) (e : Event) : State :=
  match e with
  | Change n v => handleChange fields n v st
  | Blur n v => handleBlur fields n v st
  | Submit => fst (handleSubmit fields st)
  end.

(** What the user does to the form, from its first render on. *)
Definition after_events (fields : list Field) (events : list Event) : State :=
  fold_left (handle fields) events initial.

(** A field whose current value passes its validation. *)
Definition passes (st : State) (f : Field) : Prop :=
  validateField (name f) (value_of st (name f)) (validation f) = "".

(** An error that is not empty belongs to a touched field. *)
Definition errors_touched (st : State) : Prop :=
  forall n e, errors st !! n = Some e -> e <> "" -> touched st !! n = Some true.

(** The names every object has from [Object.prototype]: as a key of
    [values], [errors] or [touched] such a name reads an inherited
    property, which the maps above do not hold. *)
Definition inherited_names : list string :=
  ["constructor"; "__proto__"; "hasOwnProperty"; "isPrototypeOf";
   "propertyIsEnumerable"; "toLocaleString"; "toString"; "valueOf";
   "__defineGetter__"; "__defineSetter__"; "__lookupGetter__";
   "__lookupSetter__"].

Definition own_name (n : string) : Prop := ~ In n inherited_names.

Definition event_name (e : Event) : option string :=
  match e with
  | Change n _ => Some n
  | Blur n _ => Some n
  | Submit => None
  end.

End Form.

(* ===================================================================== *)
(** ** client/src/tests/utils/testHelpers.js: mockLocalStorage *)
(* ===================================================================== *)

Module MockLocalStorage.
Import Js.

(** The [store] object that the four functions close over holds strings
    under the keys that were set. *)

(** [getItem: (key) => store[key] || null] *)
Definition getItem (store : gmap string string) (key : string) : value :=
  match store !! key with
  | Some v => or_else (VStr v) VNull
  | None => VNull
  end.

(** [setItem: (key, value) => { store[key] = value.toString(); }] *)
Definition setItem (store : gmap string string) (key : string) (v : value)
  : completion (gmap string string) :=
  text ← call_toString v;
  Returns (<[key := text]> store).

(** [removeItem: (key) => { delete store[key]; }] *)
Definition removeItem (store : gmap string string) (key : string)
  : gmap string string :=
  delete key store.

(** [clear: () => { Object.keys(store).forEach((key) => delete store[key]); }] *)
Definition clear (store : gmap string string) : gmap string string :=
  foldr delete store (map fst (map_to_list store)).

End MockLocalStorage.

(* ===================================================================== *)
(** ** jsonwebtoken: what [jwt.verify(token, secret)] checks *)
(* ===================================================================== *)

Module Jsonwebtoken.
Import Js.

Definition JsonWebTokenError (msg : string) : JsError :=
  new_error "JsonWebTokenError" msg.
Definition TokenExpiredError : JsError :=
  new_error "TokenExpiredError" "jwt expired".
Definition NotBeforeError : JsError :=
  new_error "NotBeforeError" "jwt not active".

(** The algorithms the library accepts when the key is a secret and the
    caller names none. *)
Definition HS_ALGS : list string := ["HS256"; "HS384"; "HS512"].

(** White space, as far as it fits in one byte. *)
Definition is_space (c : ascii) : bool :=
  ((9 <=? nat_of_ascii c) && (nat_of_ascii c <=? 13) || (nat_of_ascii c =? 32))%nat.

(** [s.trim() === ''] *)
Definition blank (s : string) : bool := PostModel.all_chars is_space s.

Definition quoted (s : string) : string :=
  String (ascii_of_nat 34) s ++ String (ascii_of_nat 34) "".

Section Verify.

(** jws: the header and the payload that a compact token carries in its
    first two parts (Base64url, JSON); [None] for a token that jws cannot
    read. *)
Variable jws_decode : string -> option (value * value).

(** jws: [jws.verify(token, alg, secret)], whether the third part of the
    token is the signature of the first two under the secret. *)
Variable jws_verify : string -> string -> string -> bool.

(** The [nbf] claim: a token is not accepted before that time. *)
Definition check_not_before (clockTimestamp : Z) (payload : value)
  : completion unit :=
  nbf ← get_prop payload "nbf";
  match nbf with
  | VUndefined => Returns tt
  | VNum n => if clockTimestamp <? n then Throws NotBeforeError else Returns tt
  | _ => Throws (JsonWebTokenError "invalid nbf value")
  end.

(** The [exp] claim: [if (clockTimestamp >= payload.exp) ...] *)
Definition check_expiry (clockTimestamp : Z) (payload : value)
  : completion unit :=
  exp ← get_prop payload "exp";
  match exp with
  | VUndefined => Returns tt
  | VNum n => if n <=? clockTimestamp then Throws TokenExpiredError else Returns tt
  | _ => Throws (JsonWebTokenError "invalid exp value")
  end.

(** [jwt.verify(token, secret)] without options and without a callback,
    called when [Date.now()] is [now] (in milliseconds): the checks it
    makes, in the library's order, and the error of the first that fails.
    The secret is a string that is no PEM-encoded key, so the accepted
    algorithms are the HMAC ones. *)
Definition verify (now : Z) (token secret : value) : completion value :=
  let clockTimestamp := now / 1000 in
  if negb (truthy token) then Throws (JsonWebTokenError "jwt must be provided")
  else
    match token with
    | VStr jwtString =>
        let parts := split "." jwtString in
        if negb (Nat.eqb (List.length parts) 3) then
          Throws (JsonWebTokenError "jwt malformed")
        else
          match jws_decode jwtString with
          | None => Throws (JsonWebTokenError "invalid token")
          | Some (header, payload) =>
              let hasSignature := negb (blank (nth 2 parts "")) in
              if negb hasSignature && truthy secret then
                Throws (JsonWebTokenError "jwt signature is required")
              else if hasSignature && negb (truthy secret) then
                Throws (JsonWebTokenError "secret or public key must be provided")
              else if negb hasSignature then
                Throws (JsonWebTokenError
                          ("please specify " ++ quoted "none" ++ " in "
                           ++ quoted "algorithms"
                           ++ " to verify unsigned tokens"))
              else
                match secret with
                | VStr key =>
                    alg ← get_prop header "alg";
                    match alg with
                    | VStr a =>
                        if negb (existsb (String.eqb a) HS_ALGS) then
                          Throws (JsonWebTokenError "invalid algorithm")
                        else if negb (jws_verify jwtString a key) then
                          Throws (JsonWebTokenError "invalid signature")
                        else
                          _ ← check_not_before clockTimestamp payload;
                          _ ← check_expiry clockTimestamp payload;
                          Returns payload
                    | _ => Throws (JsonWebTokenError "invalid algorithm")
                    end
                | _ =>
                    Throws (JsonWebTokenError
                              "secretOrPublicKey is not valid key material")
                end
          end
    | _ => Throws (JsonWebTokenError "jwt must be a string")
    end.

End Verify.

End Jsonwebtoken.

(* ===================================================================== *)
(** ** Sample data: stand-ins for the libraries, users and posts *)
(* ===================================================================== *)

Module Sample.
Import Js Http PostsController.

Definition env : Env :=
  {| JWT_SECRET := Some "test-secret"; JWT_EXPIRE := None;
     NODE_ENV := Some "production" |}.

Definition dev_env : Env :=
  {| JWT_SECRET := Some "test-secret"; JWT_EXPIRE := None;
     NODE_ENV := Some "development" |}.

(** A stand-in for [jwt.sign]: the token names its subject, its freshness
    and the key it was signed with. Like jsonwebtoken it checks the key and
    not the private claims [id] and [email] of the payload. *)
Definition jwt_sign (payload secret expiresIn : value) : completion string :=
  match secret with
  | VStr k =>
      if (k =? "")%string then Throws (Error "secretOrPrivateKey must have a value")
      else
        id ← get_prop payload "id";
        Returns (to_string id ++ ".fresh." ++ k)
  | _ => Throws (Error "secretOrPrivateKey must have a value")
  end.

(** A stand-in for [jwt.verify] that tells the three failure causes apart,
    as jsonwebtoken does. *)
Definition jwt_verify (now : Z) (token secret : value) : completion value :=
  match token with
  | VStr t =>
      match split "." t with
      | [subject; freshness; key] =>
          if negb (is_str secret key) then Throws AuthUtils.jwt_invalid_signature
          else if (freshness =? "stale")%string then Throws AuthUtils.jwt_expired
          else Returns (VObj [("id", VStr subject);
                              ("email", VStr (subject ++ "@example.com"))])
      | _ => Throws AuthUtils.jwt_malformed
      end
  | _ => Throws (new_error "JsonWebTokenError" "jwt must be a string")
  end.

(** A stand-in for [bcrypt.hash]: the salt followed by 31 characters taken
    from the password. *)
Definition bcrypt_hash (s salt : string) : completion string :=
  Returns (salt ++ substring 0 31 (s ++ "...............................")).

Definition salt : string := "$2a$10$abcdefghijklmnopqrstuv".

Definition alice_id : string := "64b5f0a1c2d3e4f5a6b7c8d1".
Definition bob_id : string := "64b5f0a1c2d3e4f5a6b7c8d2".
Definition root_id : string := "64b5f0a1c2d3e4f5a6b7c8d3".
Definition post_id : string := "64b5f0a1c2d3e4f5a6b7c8e1".

Definition alice : User :=
  {| user_id := alice_id; username := "alice"; user_email := "alice@example.com";
     role := "user"; password := Some "$2a$10$hash-of-alice" |}.
Definition bob : User :=
  {| user_id := bob_id; username := "bob"; user_email := "bob@example.com";
     role := "user"; password := Some "$2a$10$hash-of-bob" |}.
Definition root : User :=
  {| user_id := root_id; username := "root"; user_email := "root@example.com";
     role := "admin"; password := Some "$2a$10$hash-of-root" |}.

Definition all_users : gmap string User :=
  <[alice_id := alice]> (<[bob_id := bob]> (<[root_id := root]> ∅)).

(** A stand-in for [User.findById]. *)
Definition User_findById (id : value) : completion (option User) :=
  match id with
  | VStr s => Returns (all_users !! s)
  | _ => Returns None
  end.


(** Alice's post. *)
Definition alice_post : Doc :=
  [("_id", VStr post_id);
   ("title", VStr "Original Title");
   ("content", VStr "This is test post content.");
   ("slug", VStr "original-title");
   ("tags", VArr []);
   ("published", VBool false);
   ("author", VStr alice_id);
   ("createdAt", VNum 1000);
   ("updatedAt", VNum 1000)].

Definition db : MemDb.DB :=
  {| MemDb.posts := <[post_id := alice_post]> ∅;
     MemDb.users := all_users;
     MemDb.clock := 2000 |}.

(** An update schema that accepts everything. *)
Definition accept_all (update : Doc) : option JsError := None.

(** An update schema that casts [category] to an ObjectId, as the Post
    schema's category reference does. *)
Definition cast_category (update : Doc) : option JsError :=
  match field "category" update with
  | Some (VStr c) =>
      if MemDb.is_object_id c then None else Some (MemDb.cast_error c)
  | _ => None
  end.

(** [PUT /posts/:id] and [DELETE /posts/:id] on Alice's post by [u], after
    [protect] and the validation chain have run. *)
Definition request_by (u : User) (body : list (string * value))
    (validation_errors : list value) : Request :=
  {| authorization := None;
     params_id := post_id;
     body := body;
     validation_errors := validation_errors;
     user := Some u |}.

(** A token signed for Alice with the server's secret. *)
Definition alice_token : string := alice_id ++ ".fresh.test-secret".

(** [verifyToken] of utils/auth.js over the stand-in library. *)
Definition verifyToken (token : value) : completion value :=
  AuthUtils.verifyToken env jwt_verify 1700000000 token.

Definition digit (c : ascii) : option Z :=
  if ((48 <=? nat_of_ascii c) && (nat_of_ascii c <=? 57))%nat
  then Some (Z.of_nat (nat_of_ascii c) - 48) else None.

Fixpoint read_digits (acc : Z) (s : string) : option Z :=
  match s with
  | EmptyString => Some acc
  | String c rest =>
      match digit c with
      | Some d => read_digits (10 * acc + d) rest
      | None => None
      end
  end.

(** A stand-in for jws's codec: the first part of a token names the
    algorithm, the second is the subject, or the subject and the expiry
    (in seconds) after a comma. *)
Definition jws_decode (t : string) : option (value * value) :=
  match split "." t with
  | [alg; body; _] =>
      let header := VObj [("alg", VStr alg); ("typ", VStr "JWT")] in
      match split "," body with
      | [subject] => Some (header, VObj [("id", VStr subject)])
      | [subject; exp] =>
          match exp with
          | EmptyString => None
          | _ =>
              match read_digits 0 exp with
              | Some n => Some (header, VObj [("id", VStr subject); ("exp", VNum n)])
              | None => None
              end
          end
      | _ => None
      end
  | _ => None
  end.

(** A stand-in for jws's signature check: a token is signed with the key
    its third part spells. *)
Definition jws_verify (t alg key : string) : bool :=
  match split "." t with
  | [_; _; signature] => (signature =? key)%string
  | _ => false
  end.

(** [verifyToken] of utils/auth.js over jsonwebtoken's [verify] and the
    stand-in codec, called when [Date.now()] is [now]. *)
Definition verifyToken_at (now : Z) (token : value) : completion value :=
  AuthUtils.verifyToken env (Jsonwebtoken.verify jws_decode jws_verify) now token.

Definition new_content : list (string * value) :=
  [("title", VStr "Updated Title");
   ("content", VStr "This is updated post content.")].

Definition title_too_short : value :=
  VObj [("msg", VStr "Title must be between 3 and 200 characters");
        ("path", VStr "title")].

(** A request that carries the given Authorization header. *)
Definition request_with (header : option string) : Request :=
  {| authorization := header;
     params_id := "";
     body := [];
     validation_errors := [];
     user := None |}.

(** Errors of the shapes the error handler's tests use. *)
Definition plain_error (msg trace : string) : JsError :=
  {| name := VUndefined; message := VStr msg; stack := VStr trace;
     code := VUndefined; statusCode := VUndefined;
     keyPattern := None; errors := None |}.

Definition duplicate_email : JsError :=
  {| name := VUndefined; message := VStr "Duplicate key error";
     stack := VUndefined; code := VNum 11000; statusCode := VUndefined;
     keyPattern := Some [("email", VNum 1)]; errors := None |}.

(** A duplicate-key code on an error that carries no key pattern. *)
Definition duplicate_without_pattern : JsError :=
  {| name := VUndefined; message := VStr "Duplicate key error";
     stack := VUndefined; code := VNum 11000; statusCode := VUndefined;
     keyPattern := None; errors := None |}.

(** A validation error that carries no errors object. *)
Definition validation_without_errors : JsError :=
  {| name := VStr "ValidationError"; message := VStr "Validation failed";
     stack := VUndefined; code := VUndefined; statusCode := VUndefined;
     keyPattern := None; errors := None |}.

Definition validation_error : JsError :=
  {| name := VStr "ValidationError"; message := VUndefined;
     stack := VUndefined; code := VUndefined; statusCode := VUndefined;
     keyPattern := None;
     errors := Some [("email", VObj [("message", VStr "Email is required")]);
                     ("password", VObj [("message", VStr "Password is required")])] |}.

(** A cast error that also bears the duplicate-key code. *)
Definition cast_and_duplicate : JsError :=
  {| name := VStr "CastError"; message := VStr "Cast to ObjectId failed";
     stack := VUndefined; code := VNum 11000; statusCode := VUndefined;
     keyPattern := Some [("email", VNum 1)]; errors := None |}.

(** Stand-ins for the populated lookup and for [Post.create] over the
    in-memory collection. *)
Definition findById_populate (id : value) : Query MemDb.DB value :=
  Run (fun db =>
    match id with
    | VStr s =>
        if MemDb.is_object_id s then
          (Returns match MemDb.posts db !! s with
                   | Some doc => VObj (MemDb.populate_author (MemDb.users db) doc)
                   | None => VNull
                   end, db)
        else (Throws (MemDb.cast_error s), db)
    | _ => (Throws (MemDb.cast_error (to_string id)), db)
    end).

Definition new_post_id : string := "64b5f0a1c2d3e4f5a6b7c8e2".

Definition Post_create (doc : Doc) : Query MemDb.DB value :=
  Run (fun db =>
    let stored := ("_id", VStr new_post_id) :: doc in
    (Returns (VObj stored),
     MemDb.with_posts (<[new_post_id := stored]> (MemDb.posts db)) db)).

(** [GET /posts/:id] *)
Definition get_request (id : string) : Request :=
  {| authorization := None;
     params_id := id;
     body := [];
     validation_errors := [];
     user := None |}.

(** [DELETE /posts/:id] on Alice's post with the given header. *)
Definition delete_request (header : option string) : Request :=
  {| authorization := header;
     params_id := post_id;
     body := [];
     validation_errors := [];
     user := None |}.

(** The fields of a post form: a required title of 3 to 200 characters and
    an optional summary of at least 10. *)
Definition title_field : Form.Field :=
  {| Form.name := "title";
     Form.validation := Some
       {| Form.required := true; Form.requiredMessage := None;
          Form.minLength := Some 3; Form.minLengthMessage := None;
          Form.maxLength := Some 200; Form.maxLengthMessage := None;
          Form.pattern := None; Form.patternMessage := None;
          Form.custom := None |} |}.

Definition summary_validation : Form.Validation :=
  {| Form.required := false; Form.requiredMessage := None;
     Form.minLength := Some 10; Form.minLengthMessage := None;
     Form.maxLength := None; Form.maxLengthMessage := None;
     Form.pattern := None; Form.patternMessage := None;
     Form.custom := None |}.

Definition summary_field : Form.Field :=
  {| Form.name := "summary"; Form.validation := Some summary_validation |}.

Definition post_form : list Form.Field := [title_field; summary_field].

(** The user types a title and a summary, leaving each field. *)
Definition filled_in : list Form.Event :=
  [Form.Change "title" "Hello"; Form.Blur "title" "Hello";
   Form.Change "summary" "A longer summary"; Form.Blur "summary" "A longer summary"].

(** A post content of 151 characters. *)
Definition content_151 : string :=
  "Lorem ipsum dolor sit amet, consectetur adipiscing elit, sed do eiusmod tempor incididunt ut labore et dolore magna aliqua. Ut enim ad minim veniam, qu".

(** A request that carries Alice's token. *)
Definition alice_request : Request :=
  request_with (Some ("Bearer " ++ alice_token)).

(** A JSON Web Token error that also declares a status code. *)
Definition token_error_with_status : JsError :=
  {| name := VStr "JsonWebTokenError"; message := VStr "jwt malformed";
     stack := VStr "JsonWebTokenError: jwt malformed at verify";
     code := VUndefined; statusCode := VNum 403;
     keyPattern := None; errors := None |}.

Definition info : ErrorHandler.RequestInfo :=
  {| ErrorHandler.originalUrl := VStr "/api/test";
     ErrorHandler.method := VStr "GET";
     ErrorHandler.ip := VStr "127.0.0.1" |}.

End Sample.

(* ===================================================================== *)
(** ** Properties of utils/auth.js *)
(* ===================================================================== *)

Module AuthUtilsFacts.
Import Js AuthUtils.

Section Facts.

Variable env : Env.
Variable jwt_sign : value -> value -> value -> completion string.
Variable jwt_verify : Z -> value -> value -> completion value.
Variable bcrypt_hash : string -> string -> completion string.

(** Whatever error [jwt.verify] throws, [verifyToken] throws the one error
    [Error('Invalid token')]; and when [jwt.verify] returns the claims,
    [verifyToken] returns them. *)
Lemma verifyToken_wraps_verifier (now : Z) (token : value) :
  (forall e : JsError,
      jwt_verify now token (env_value (JWT_SECRET env)) = Throws e ->
      verifyToken env jwt_verify now token = Throws (Error "Invalid token"))
  /\ (forall claims : value,
      jwt_verify now token (env_value (JWT_SECRET env)) = Returns claims ->
      verifyToken env jwt_verify now token = Returns claims).
Proof.
  unfold verifyToken, try_catch.
  split; intros x Hx; rewrite Hx; reflexivity.
Qed.

(** Two failed verifications cannot be told apart by their results. *)
Lemma verifyToken_failures_equal (now1 now2 : Z) (t1 t2 : value) (e1 e2 : JsError) :
  jwt_verify now1 t1 (env_value (JWT_SECRET env)) = Throws e1 ->
  jwt_verify now2 t2 (env_value (JWT_SECRET env)) = Throws e2 ->
  verifyToken env jwt_verify now1 t1 = verifyToken env jwt_verify now2 t2.
Proof.
  intros H1 H2. unfold verifyToken, try_catch.
  rewrite H1, H2. reflexivity.
Qed.

(** [verifyToken] never throws anything else. *)
Lemma verifyToken_throws_only_invalid (now : Z) (token : value) (e : JsError) :
  verifyToken env jwt_verify now token = Throws e -> e = Error "Invalid token".
Proof.
  unfold verifyToken, try_catch.
  destruct (jwt_verify now token _); intros H; congruence.
Qed.

(** C6, as the code has it. [generateToken] throws a TypeError for a null or
    undefined user, before anything is signed; for every other user it
    checks nothing and hands [{ id: user._id, email: user.email }] to
    [jwt.sign], so its result is whatever the signing returns, also when
    the id or the email is missing or empty. *)
Theorem generateToken_signs_without_checking (user : value) :
  match user with
  | VUndefined | VNull =>
      exists msg, generateToken env jwt_sign user = Throws (TypeError msg)
  | _ =>
      exists id email,
        get_prop user "_id" = Returns id
        /\ get_prop user "email" = Returns email
        /\ generateToken env jwt_sign user
           = jwt_sign (VObj [("id", id); ("email", email)])
               (env_value (JWT_SECRET env))
               (or_else (env_value (JWT_EXPIRE env)) (VStr "24h"))
  end.
Proof.
  unfold generateToken.
  destruct user; simpl; eauto.
Qed.

(** C7, as the code has it. [comparePassword] is bcryptjs's [compare]:
    for a string password it resolves to [false] against a string hash
    that is not 60 characters long; against one that is, it resolves to
    whether the digest of the password under the hash's salt is the hash
    (so [false] for a password that does not match, the empty one
    included) or rejects with the error of the digest computation; and
    against a hash that is no string (a missing one) it rejects with
    [Error('Illegal arguments: string, ...')]. *)
Theorem comparePassword_outcomes (password : string) (hash : value) :
  match hash with
  | VStr h =>
      if Nat.eqb (String.length h) 60 then
        match bcrypt_hash password (substring 0 29 h) with
        | Returns digest =>
            comparePassword bcrypt_hash (VStr password) hash
            = Returns (digest =? h)%string
        | Throws e =>
            comparePassword bcrypt_hash (VStr password) hash = Throws e
        end
      else comparePassword bcrypt_hash (VStr password) hash = Returns false
  | _ =>
      comparePassword bcrypt_hash (VStr password) hash
      = Throws (Error ("Illegal arguments: string, " ++ typeof hash))
  end.
Proof.
  unfold comparePassword, bcrypt_compare.
  destruct hash; simpl; try reflexivity.
  destruct (Nat.eqb (String.length s) 60); simpl; [| reflexivity].
  destruct (bcrypt_hash password (substring 0 29 s)); reflexivity.
Qed.

(** A password that does not hash to the stored hash is answered [false]. *)
Lemma comparePassword_no_match (password h digest : string) :
  String.length h = 60%nat ->
  bcrypt_hash password (substring 0 29 h) = Returns digest ->
  digest <> h ->
  comparePassword bcrypt_hash (VStr password) (VStr h) = Returns false.
Proof.
  intros Hlen Hd Hne.
  unfold comparePassword, bcrypt_compare.
  rewrite Hlen, Hd. simpl.
  f_equal. apply String.eqb_neq. exact Hne.
Qed.

End Facts.

(** A user object without an id, and one whose id and email are empty, are
    both given a token. *)
Lemma generateToken_accepts_missing_id :
  generateToken Sample.env Sample.jwt_sign
    (VObj [("email", VStr "test@example.com")])
    = Returns "undefined.fresh.test-secret"
  /\ generateToken Sample.env Sample.jwt_sign
    (VObj [("_id", VStr ""); ("email", VStr "")])
    = Returns ".fresh.test-secret".
Proof. split; reflexivity. Qed.

(** A missing hash makes the comparison reject. *)
Lemma comparePassword_rejects_missing_hash :
  comparePassword Sample.bcrypt_hash (VStr "password123") VUndefined
  = Throws (Error "Illegal arguments: string, undefined").
Proof. reflexivity. Qed.

End AuthUtilsFacts.

(* ===================================================================== *)
(** ** verifyToken over jsonwebtoken's verify *)
(* ===================================================================== *)

Module VerifyTokenFacts.
Import Js AuthUtils.

Section Facts.

Variable env : Env.
Variable jws_decode : string -> option (value * value).
Variable jws_verify : string -> string -> string -> bool.

Abbreviation jwt_verify := (Jsonwebtoken.verify jws_decode jws_verify).
Abbreviation verifyToken := (AuthUtils.verifyToken env jwt_verify).

(** The expiry check passes for a payload without [exp] and for one whose
    [exp] is a number above the clock. *)
Lemma check_expiry_passes (clock : Z) (payload : value) :
  Jsonwebtoken.check_expiry clock payload = Returns tt
  <-> get_prop payload "exp" = Returns VUndefined
      \/ exists exp : Z, get_prop payload "exp" = Returns (VNum exp) /\ clock < exp.
Proof.
  unfold Jsonwebtoken.check_expiry.
  destruct (get_prop payload "exp") as [exp | e]; simpl.
  - destruct exp as [| | b | n | s | items | fields]; simpl;
      try (split; [discriminate | intros [H | (x & H & _)]; discriminate]).
    + split; [left; reflexivity | reflexivity].
    + destruct (Z.leb_spec n clock) as [Hle | Hlt].
      * split; [discriminate |].
        intros [H | (x & H & Hx)]; [discriminate |].
        injection H as <-. lia.
      * split; [| reflexivity]. intros _. right. exists n. split; [reflexivity | lia].
  - split; [discriminate | intros [H | (x & H & _)]; discriminate].
Qed.

Lemma check_not_before_passes (clock : Z) (payload : value) :
  Jsonwebtoken.check_not_before clock payload = Returns tt
  <-> get_prop payload "nbf" = Returns VUndefined
      \/ exists nbf : Z, get_prop payload "nbf" = Returns (VNum nbf) /\ nbf <= clock.
Proof.
  unfold Jsonwebtoken.check_not_before.
  destruct (get_prop payload "nbf") as [nbf | e]; simpl.
  - destruct nbf as [| | b | n | s | items | fields]; simpl;
      try (split; [discriminate | intros [H | (x & H & _)]; discriminate]).
    + split; [left; reflexivity | reflexivity].
    + destruct (Z.ltb_spec clock n) as [Hlt | Hle].
      * split; [discriminate |].
        intros [H | (x & H & Hx)]; [discriminate |].
        injection H as <-. lia.
      * split; [| reflexivity]. intros _. right. exists n. split; [reflexivity | lia].
  - split; [discriminate | intros [H | (x & H & _)]; discriminate].
Qed.

Lemma HS_ALGS_spec (a : string) :
  existsb (String.eqb a) Jsonwebtoken.HS_ALGS = true <-> In a Jsonwebtoken.HS_ALGS.
Proof.
  rewrite existsb_exists. split.
  - intros (x & Hin & Heq). apply String.eqb_eq in Heq. subst x. exact Hin.
  - intros Hin. exists a. split; [exact Hin | apply String.eqb_refl].
Qed.

(** [jwt.verify] returns for exactly these tokens, and returns their
    payload: a string of three parts that jws can read, with a signature
    that is valid under the secret for one of the HMAC algorithms, that is
    not used before its time ([nbf]) and whose expiry ([exp]), if it has
    one, is above the clock. *)
Lemma verify_returns_iff (now : Z) (token secret claims : value) :
  jwt_verify now token secret = Returns claims
  <-> exists (t key alg : string) (header : value),
        token = VStr t
        /\ secret = VStr key
        /\ key <> ""
        /\ List.length (split "." t) = 3%nat
        /\ jws_decode t = Some (header, claims)
        /\ Jsonwebtoken.blank (nth 2 (split "." t) "") = false
        /\ get_prop header "alg" = Returns (VStr alg)
        /\ In alg Jsonwebtoken.HS_ALGS
        /\ jws_verify t alg key = true
        /\ (get_prop claims "nbf" = Returns VUndefined
            \/ exists nbf : Z,
                 get_prop claims "nbf" = Returns (VNum nbf) /\ nbf <= now / 1000)
        /\ (get_prop claims "exp" = Returns VUndefined
            \/ exists exp : Z,
                 get_prop claims "exp" = Returns (VNum exp) /\ now / 1000 < exp).
Proof.
  split.
  - unfold Jsonwebtoken.verify. intros H.
    destruct (truthy token) eqn:Htruthy; cbn [negb] in H; [| discriminate].
    destruct token as [| | b | n | t | items | fields]; try discriminate.
    destruct (Nat.eqb (List.length (split "." t)) 3) eqn:Hparts;
      cbn [negb] in H; [| discriminate].
    destruct (jws_decode t) as [[header payload] |] eqn:Hdec; [| discriminate].
    destruct (Jsonwebtoken.blank (nth 2 (split "." t) "")) eqn:Hblank;
      cbn [negb andb] in H.
    { destruct (truthy secret); discriminate. }
    destruct (truthy secret) eqn:Hsecret; cbn [negb] in H; [| discriminate].
    destruct secret as [| | b | n | key | items | fields]; try discriminate.
    destruct (get_prop header "alg") as [alg | e] eqn:Halg; [| discriminate].
    cbn [mbind completion_bind bind] in H.
    destruct alg as [| | b | n | a | items | fields]; try discriminate.
    destruct (existsb (String.eqb a) Jsonwebtoken.HS_ALGS) eqn:Halgs;
      cbn [negb] in H; [| discriminate].
    destruct (jws_verify t a key) eqn:Hsig; cbn [negb] in H; [| discriminate].
    destruct (Jsonwebtoken.check_not_before (now / 1000) payload) as [[] | e]
      eqn:Hnbf; [| discriminate].
    cbn [mbind completion_bind bind] in H.
    destruct (Jsonwebtoken.check_expiry (now / 1000) payload) as [[] | e]
      eqn:Hexp; [| discriminate].
    cbn [mbind completion_bind bind] in H.
    injection H as <-.
    exists t, key, a, header.
    split; [reflexivity |]. split; [reflexivity |].
    split.
    { intros ->. discriminate Hsecret. }
    split; [apply Nat.eqb_eq; exact Hparts |].
    split; [exact Hdec |]. split; [exact Hblank |]. split; [exact Halg |].
    split; [apply HS_ALGS_spec; exact Halgs |].
    split; [exact Hsig |].
    split; [apply check_not_before_passes; exact Hnbf
           | apply check_expiry_passes; exact Hexp].
  - intros (t & key & alg & header & -> & -> & Hkey & Hparts & Hdec & Hblank
            & Halg & Halgs & Hsig & Hnbf & Hexp).
    apply check_not_before_passes in Hnbf. apply check_expiry_passes in Hexp.
    apply HS_ALGS_spec in Halgs. apply Nat.eqb_eq in Hparts.
    assert (Ht : truthy (VStr t) = true).
    { destruct t; [discriminate Hparts | reflexivity]. }
    assert (Hk : truthy (VStr key) = true).
    { destruct key; [congruence | reflexivity]. }
    unfold Jsonwebtoken.verify.
    rewrite Ht, Hparts, Hdec, Hblank, Hk. cbn [negb andb].
    rewrite Halg. cbn [mbind completion_bind bind].
    rewrite Halgs, Hsig. cbn [negb].
    rewrite Hnbf. cbn [mbind completion_bind bind].
    rewrite Hexp. reflexivity.
Qed.

(** C5, as the code and jsonwebtoken have it. [verifyToken] throws the one
    error [Error('Invalid token')] whatever makes [jwt.verify] fail, and
    so for a token that is no string of three parts that can be decoded,
    for a token whose signature is not valid under the server's secret,
    and for a token whose expiry is at or before the time of the
    verification in whole seconds; two failures cannot be told apart. It
    returns the claims for exactly the tokens that pass all of the
    library's checks: three parts that can be decoded, a signature that is
    valid under the secret for an HMAC algorithm, no [nbf] that lies
    ahead, and no expiry or one that lies ahead. *)
Theorem verifyToken_partitions_tokens (now : Z) (token : value) :
  (forall e : JsError,
      jwt_verify now token (env_value (JWT_SECRET env)) = Throws e ->
      verifyToken now token = Throws (Error "Invalid token"))
  /\ ((forall t : string,
         token = VStr t ->
         List.length (split "." t) <> 3%nat \/ jws_decode t = None) ->
      verifyToken now token = Throws (Error "Invalid token"))
  /\ (forall (t key alg : string) (header payload : value),
        token = VStr t ->
        jws_decode t = Some (header, payload) ->
        get_prop header "alg" = Returns (VStr alg) ->
        JWT_SECRET env = Some key ->
        jws_verify t alg key = false ->
        verifyToken now token = Throws (Error "Invalid token"))
  /\ (forall (t : string) (header payload : value) (exp : Z),
        token = VStr t ->
        jws_decode t = Some (header, payload) ->
        get_prop payload "exp" = Returns (VNum exp) ->
        exp <= now / 1000 ->
        verifyToken now token = Throws (Error "Invalid token"))
  /\ (forall (now' : Z) (token' : value),
        (forall claims : value, verifyToken now token <> Returns claims) ->
        (forall claims : value, verifyToken now' token' <> Returns claims) ->
        verifyToken now token = verifyToken now' token')
  /\ (forall claims : value,
        verifyToken now token = Returns claims
        <-> exists (t key alg : string) (header : value),
              token = VStr t
              /\ JWT_SECRET env = Some key
              /\ key <> ""
              /\ List.length (split "." t) = 3%nat
              /\ jws_decode t = Some (header, claims)
              /\ Jsonwebtoken.blank (nth 2 (split "." t) "") = false
              /\ get_prop header "alg" = Returns (VStr alg)
              /\ In alg Jsonwebtoken.HS_ALGS
              /\ jws_verify t alg key = true
              /\ (get_prop claims "nbf" = Returns VUndefined
                  \/ exists nbf : Z,
                       get_prop claims "nbf" = Returns (VNum nbf)
                       /\ nbf <= now / 1000)
              /\ (get_prop claims "exp" = Returns VUndefined
                  \/ exists exp : Z,
                       get_prop claims "exp" = Returns (VNum exp)
                       /\ now / 1000 < exp)).
Proof.
  assert (Hwrap : forall n tok,
             verifyToken n tok = Throws (Error "Invalid token")
             \/ exists claims,
                  jwt_verify n tok (env_value (JWT_SECRET env)) = Returns claims
                  /\ verifyToken n tok = Returns claims).
  { intros n tok. unfold AuthUtils.verifyToken, try_catch.
    destruct (jwt_verify n tok (env_value (JWT_SECRET env))) as [claims | e];
      [right; exists claims; split; reflexivity | left; reflexivity]. }
  assert (Hreturns : forall claims,
             verifyToken now token = Returns claims
             <-> jwt_verify now token (env_value (JWT_SECRET env)) = Returns claims).
  { intros claims. unfold AuthUtils.verifyToken, try_catch.
    destruct (jwt_verify now token (env_value (JWT_SECRET env)));
      split; congruence. }
  split; [| split; [| split; [| split; [| split]]]].
  - intros e He. unfold AuthUtils.verifyToken, try_catch. rewrite He. reflexivity.
  - intros Hbad.
    destruct (Hwrap now token) as [H | (claims & Hv & _)]; [exact H | exfalso].
    apply verify_returns_iff in Hv
      as (t & key & alg & header & Ht & _ & _ & Hparts & Hdec & _).
    destruct (Hbad t Ht) as [H | H]; congruence.
  - intros t key alg header payload Ht Hdec Halg Hkey Hsig.
    destruct (Hwrap now token) as [H | (claims & Hv & _)]; [exact H | exfalso].
    apply verify_returns_iff in Hv
      as (t' & key' & alg' & header' & Ht' & Hkey' & _ & _ & Hdec' & _ & Halg'
          & _ & Hsig' & _).
    rewrite Hkey in Hkey'. simpl in Hkey'. congruence.
  - intros t header payload exp Ht Hdec Hexp Hle.
    destruct (Hwrap now token) as [H | (claims & Hv & _)]; [exact H | exfalso].
    apply verify_returns_iff in Hv
      as (t' & key' & alg' & header' & Ht' & _ & _ & _ & Hdec' & _ & _ & _ & _
          & _ & Hexp').
    assert (claims = payload) by congruence. subst claims.
    destruct Hexp' as [H | (exp' & H & Hlt)]; [congruence |].
    assert (exp' = exp) by congruence. lia.
  - intros now' token' Hfail Hfail'.
    destruct (Hwrap now token) as [H | (claims & _ & H)];
      [| elim (Hfail claims H)].
    destruct (Hwrap now' token') as [H' | (claims & _ & H')];
      [| elim (Hfail' claims H')].
    congruence.
  - intros claims. rewrite Hreturns, verify_returns_iff.
    split; intros (t & key & alg & header & Ht & Hkey & Hrest);
      exists t, key, alg, header; (split; [exact Ht |]); (split; [| exact Hrest]).
    + destruct (JWT_SECRET env); simpl in Hkey; congruence.
    + rewrite Hkey. reflexivity.
Qed.

End Facts.

(** At [Date.now() = 1700000000000]: a token of one part, a token signed
    with another secret and a token that expired in 2020 are refused with
    the same error; a token signed with the server's secret that expires in
    2027 gives its claims. *)
Lemma verifyToken_partitions_tokens_witness :
  Sample.verifyToken_at 1700000000000 (VStr "invalid-token")
    = Throws (Error "Invalid token")
  /\ Sample.verifyToken_at 1700000000000
       (VStr "HS256.alice,1800000000.wrong-secret")
    = Throws (Error "Invalid token")
  /\ Sample.verifyToken_at 1700000000000
       (VStr "HS256.alice,1600000000.test-secret")
    = Throws (Error "Invalid token")
  /\ Sample.verifyToken_at 1700000000000
       (VStr "HS256.alice,1800000000.test-secret")
    = Returns (VObj [("id", VStr "alice"); ("exp", VNum 1800000000)]).
Proof.
  pose proof (fun token =>
    verifyToken_partitions_tokens Sample.env Sample.jws_decode Sample.jws_verify
      1700000000000 token) as facts.
  split; [| split; [| split]].
  - destruct (facts (VStr "invalid-token")) as (_ & Hmalformed & _).
    apply Hmalformed. intros t Ht. injection Ht as <-.
    left. vm_compute. discriminate.
  - destruct (facts (VStr "HS256.alice,1800000000.wrong-secret"))
      as (_ & _ & Hsignature & _).
    apply (Hsignature "HS256.alice,1800000000.wrong-secret" "test-secret" "HS256"
             (VObj [("alg", VStr "HS256"); ("typ", VStr "JWT")])
             (VObj [("id", VStr "alice"); ("exp", VNum 1800000000)]));
      reflexivity.
  - destruct (facts (VStr "HS256.alice,1600000000.test-secret"))
      as (_ & _ & _ & Hexpired & _).
    apply (Hexpired "HS256.alice,1600000000.test-secret"
             (VObj [("alg", VStr "HS256"); ("typ", VStr "JWT")])
             (VObj [("id", VStr "alice"); ("exp", VNum 1600000000)])
             1600000000); [reflexivity | reflexivity | reflexivity |].
    vm_compute. discriminate.
  - destruct (facts (VStr "HS256.alice,1800000000.test-secret"))
      as (_ & _ & _ & _ & _ & Haccepted).
    apply Haccepted.
    exists "HS256.alice,1800000000.test-secret", "test-secret", "HS256",
      (VObj [("alg", VStr "HS256"); ("typ", VStr "JWT")]).
    split; [reflexivity |]. split; [reflexivity |]. split; [discriminate |].
    split; [reflexivity |]. split; [reflexivity |]. split; [reflexivity |].
    split; [reflexivity |]. split; [simpl; auto |]. split; [reflexivity |].
    split; [left; reflexivity |].
    right. exists 1800000000. split; [reflexivity |]. vm_compute. reflexivity.
Defined.

(** A token that jws can read, signed with the server's secret, whose
    expiry is the very second of the verification, so not before it: it is
    refused. *)
Lemma verifyToken_refuses_at_expiry_instant :
  Sample.jws_decode "HS256.alice,1700000000.test-secret"
    = Some (VObj [("alg", VStr "HS256"); ("typ", VStr "JWT")],
            VObj [("id", VStr "alice"); ("exp", VNum 1700000000)])
  /\ Sample.jws_verify "HS256.alice,1700000000.test-secret" "HS256" "test-secret"
     = true
  /\ (1700000000 * 1000 <? 1700000000000) = false
  /\ Sample.verifyToken_at 1700000000000
       (VStr "HS256.alice,1700000000.test-secret")
     = Throws (Error "Invalid token").
Proof.
  split; [reflexivity |]. split; [reflexivity |]. split; [reflexivity |].
  vm_compute. reflexivity.
Qed.

End VerifyTokenFacts.

(* ===================================================================== *)
(** ** Properties of middleware/auth.js *)
(* ===================================================================== *)

Module AuthMiddlewareFacts.
Import Js Http AuthMiddleware.

Section Facts.

Variable verifyToken : value -> completion value.
Variable User_findById : value -> completion (option User).

Abbreviation protect := (protect verifyToken User_findById).

Lemma protect_without_token (req : Request) :
  truthy (bearer_token req) = false -> protect req = rejected.
Proof.
  intros H. unfold AuthMiddleware.protect. rewrite H. reflexivity.
Qed.


Lemma bearer_token_other_scheme (req : Request) (h : string) :
  authorization req = Some h -> startsWith h "Bearer" = false ->
  bearer_token req = VUndefined.
Proof.
  intros H Hp. unfold bearer_token. rewrite H, Hp.
  rewrite andb_false_r. reflexivity.
Qed.

Lemma bearer_token_prefixed (req : Request) (h : string) :
  authorization req = Some h -> startsWith h "Bearer" = true ->
  bearer_token req = index (split " " h) 1.
Proof.
  intros H Hp. unfold bearer_token. rewrite H, Hp.
  destruct h as [| c h']; [discriminate Hp | reflexivity].
Qed.

(** What [protect] does once it holds a token. *)
Lemma protect_with_token (req : Request) :
  truthy (bearer_token req) = true ->
  protect req =
    match verifyToken (bearer_token req) with
    | Throws _ =>
        Tr [CallVerifyToken (bearer_token req)]
           (Returns (Respond (VNum 401) not_authorized))
    | Returns decoded =>
        match get_prop decoded "id" with
        | Throws _ =>
            Tr [CallVerifyToken (bearer_token req)]
               (Returns (Respond (VNum 401) not_authorized))
        | Returns id =>
            Tr [CallVerifyToken (bearer_token req); CallFindById id]
               (Returns
                  match User_findById id with
                  | Throws _ => Respond (VNum 401) not_authorized
                  | Returns None => Respond (VNum 401) user_not_found
                  | Returns (Some u) =>
                      Next (set_user req (select_minus_password u))
                  end)
        end
    end.
Proof.
  intros H. unfold AuthMiddleware.protect. rewrite H. simpl.
  destruct (verifyToken (bearer_token req)) as [decoded | e]; simpl; [| reflexivity].
  destruct (get_prop decoded "id") as [id | e]; simpl; [| reflexivity].
  destruct (User_findById id) as [[u |] | e]; reflexivity.
Qed.


(** [protect] itself never throws, and it calls [next] only with a user the
    store returned for a verified token. *)
Lemma protect_next_only_verified (req req' : Request) (calls : list Call) :
  protect req = Tr calls (Returns (Next req')) ->
  exists decoded id u,
    verifyToken (bearer_token req) = Returns decoded
    /\ get_prop decoded "id" = Returns id
    /\ User_findById id = Returns (Some u)
    /\ req' = set_user req (select_minus_password u).
Proof.
  destruct (truthy (bearer_token req)) eqn:Ht.
  - rewrite (protect_with_token _ Ht).
    destruct (verifyToken (bearer_token req)) as [decoded | e] eqn:Hv;
      [| discriminate].
    destruct (get_prop decoded "id") as [id | e] eqn:Hid; [| discriminate].
    destruct (User_findById id) as [[u |] | e] eqn:Hf; try discriminate.
    intros H. exists decoded, id, u. repeat split; congruence.
  - rewrite (protect_without_token _ Ht). discriminate.
Qed.

Lemma protect_never_throws (req : Request) :
  exists calls h, protect req = Tr calls (Returns h).
Proof.
  destruct (truthy (bearer_token req)) eqn:Ht.
  - rewrite (protect_with_token _ Ht).
    destruct (verifyToken (bearer_token req)) as [decoded | e];
      [| do 2 eexists; reflexivity].
    destruct (get_prop decoded "id") as [id | e]; do 2 eexists; reflexivity.
  - rewrite (protect_without_token _ Ht). do 2 eexists; reflexivity.
Qed.

(** C9. The scheme check is a prefix check. For a header that starts with
    [Bearer], with or without a space after it, the token is the second
    space-separated component, and when that component is a non-empty
    string the first thing [protect] does is verify it. When the header
    has no second component, or does not start with [Bearer], the request
    is answered 401 and neither the verifier nor the user store is
    called. *)
Theorem protect_bearer_is_prefix_check (req : Request) (h : string) :
  authorization req = Some h ->
  (startsWith h "Bearer" = true ->
     bearer_token req = index (split " " h) 1
     /\ (truthy (index (split " " h) 1) = true ->
         exists rest,
           calls_of (protect req)
           = CallVerifyToken (index (split " " h) 1) :: rest))
  /\ (startsWith h "Bearer" = false \/ nth_error (split " " h) 1 = None ->
      protect req = Tr [] (Returns (Respond (VNum 401) not_authorized))).
Proof.
  intros Hh. split.
  - intros Hp. pose proof (bearer_token_prefixed _ _ Hh Hp) as Htok.
    split; [exact Htok |].
    intros Ht. rewrite <- Htok in *.
    rewrite (protect_with_token _ Ht).
    destruct (verifyToken (bearer_token req)) as [decoded | e]; simpl; [| eauto].
    destruct (get_prop decoded "id") as [id | e]; simpl; eauto.
  - intros [Hp | Hnone].
    + apply protect_without_token.
      rewrite (bearer_token_other_scheme _ _ Hh Hp). reflexivity.
    + apply protect_without_token.
      destruct (startsWith h "Bearer") eqn:Hp.
      * rewrite (bearer_token_prefixed _ _ Hh Hp).
        unfold index. rewrite Hnone. reflexivity.
      * rewrite (bearer_token_other_scheme _ _ Hh Hp). reflexivity.
Qed.

End Facts.


(** [BearerX tok] passes the scheme check and [tok] is verified; [Bearer]
    alone is answered 401 without a call. *)
Lemma protect_bearer_is_prefix_check_witness :
  (exists rest,
     calls_of (AuthMiddleware.protect Sample.verifyToken Sample.User_findById
                 (Sample.request_with (Some "BearerX tok")))
     = CallVerifyToken (VStr "tok") :: rest)
  /\ AuthMiddleware.protect Sample.verifyToken Sample.User_findById
       (Sample.request_with (Some "Bearer"))
     = Tr [] (Returns (Respond (VNum 401) not_authorized)).
Proof.
  split.
  - apply (proj1 (protect_bearer_is_prefix_check Sample.verifyToken
                    Sample.User_findById
                    (Sample.request_with (Some "BearerX tok")) "BearerX tok"
                    eq_refl) eq_refl).
    reflexivity.
  - apply (proj2 (protect_bearer_is_prefix_check Sample.verifyToken
                    Sample.User_findById
                    (Sample.request_with (Some "Bearer")) "Bearer" eq_refl)).
    right. reflexivity.
Defined.

(** A header with two spaces after the scheme has an empty second
    component, which is no token. *)
Example protect_double_space :
  AuthMiddleware.protect Sample.verifyToken Sample.User_findById
    (Sample.request_with (Some ("Bearer  " ++ Sample.alice_token)))
  = Tr [] (Returns (Respond (VNum 401) not_authorized)).
Proof. reflexivity. Qed.

(** Alice's token lets the request through, with her document and without
    her password hash. *)
Example protect_accepts_alice :
  AuthMiddleware.protect Sample.verifyToken Sample.User_findById
    (Sample.request_with (Some ("Bearer " ++ Sample.alice_token)))
  = Tr [CallVerifyToken (VStr Sample.alice_token);
        CallFindById (VStr Sample.alice_id)]
       (Returns (Next (set_user
                         (Sample.request_with (Some ("Bearer " ++ Sample.alice_token)))
                         (select_minus_password Sample.alice)))).
Proof. vm_compute. reflexivity. Qed.

End AuthMiddlewareFacts.

(* ===================================================================== *)
(** ** Properties of middleware/errorHandler.js *)
(* ===================================================================== *)

Module ErrorHandlerFacts.
Import Js Http ErrorHandler.

Lemma development_iff (env : Env) :
  development env = true <-> NODE_ENV env = Some "development".
Proof.
  unfold development. destruct (NODE_ENV env) as [s |]; simpl.
  - rewrite String.eqb_eq. split; congruence.
  - split; discriminate.
Qed.

Lemma map_m_messages (entries : list (string * value)) :
  forallb (fun kv => readable (snd kv)) entries = true ->
  map_m (fun e => get_prop e "message") (map snd entries)
  = Returns (map (fun kv => entry_message (snd kv)) entries).
Proof.
  induction entries as [| [k e] rest IH]; simpl; [reflexivity |].
  intros H. apply andb_prop in H as [He Hrest].
  rewrite (IH Hrest).
  destruct e; simpl in He; try discriminate; reflexivity.
Qed.

Lemma first_key (fs : list (string * value)) (err : JsError) :
  keyPattern err = Some fs ->
  template (index (map fst fs) 0) = conflicting_field err.
Proof.
  intros H. unfold conflicting_field. rewrite H.
  destruct fs as [| [k v] rest]; reflexivity.
Qed.

(** C3, as the code has it. For every error that carries what its shape
    presumes (a duplicate-key error its key pattern, a validation error an
    errors object without null entries), the handler answers what the
    specification's precedence list gives: the first shape that matches,
    in the order cast, duplicate key, validation, malformed token, expired
    token, and otherwise the declared status code or 500. *)
Theorem errorHandler_follows_precedence
    (env : Env) (err : JsError) (req : RequestInfo) :
  well_shaped err = true ->
  snd (errorHandler env err req) = Returns (normalized env err (classify err)).
Proof.
  unfold well_shaped, classify, precedence, errorHandler. simpl.
  destruct (is_str (name err) "CastError"); [reflexivity |].
  destruct (is_num (code err) 11000).
  { destruct (keyPattern err) as [fs |] eqn:Hk; [| discriminate].
    intros _. simpl. rewrite (first_key fs err Hk). reflexivity. }
  destruct (is_str (name err) "ValidationError").
  { destruct (errors err) as [fs |] eqn:He; [| discriminate].
    intros Hall. simpl. unfold field_messages. rewrite He.
    rewrite (map_m_messages fs Hall). reflexivity. }
  destruct (is_str (name err) "JsonWebTokenError"); [reflexivity |].
  destruct (is_str (name err) "TokenExpiredError"); reflexivity.
Qed.

(** The handler answers from the same fields whatever the stack is. *)
Lemma classify_with_stack (s : value) (err : JsError) :
  classify (with_stack s err) = classify err.
Proof. reflexivity. Qed.

(** Outside development the answer does not depend on the stack, on any
    branch. *)
Lemma response_independent_of_stack
    (env : Env) (err : JsError) (req : RequestInfo) (s1 s2 : value) :
  development env = false ->
  snd (errorHandler env (with_stack s1 err) req)
  = snd (errorHandler env (with_stack s2 err) req).
Proof.
  intros Hdev. unfold errorHandler. simpl. rewrite Hdev. reflexivity.
Qed.

(** C4. On the default branch the body carries a [stack] field exactly in
    development, where it is the error's stack; in any other mode two
    errors that differ only in their stack get the same answer. *)
Theorem default_branch_stack_only_in_development
    (env : Env) (err : JsError) (req : RequestInfo) :
  classify err = None ->
  exists status fields,
    snd (errorHandler env err req) = Returns (Respond status (VObj fields))
    /\ (is_Some (field "stack" fields) <-> NODE_ENV env = Some "development")
    /\ (NODE_ENV env = Some "development" ->
        field "stack" fields = Some (stack err))
    /\ (NODE_ENV env <> Some "development" ->
        forall s1 s2 : value,
          snd (errorHandler env (with_stack s1 err) req)
          = snd (errorHandler env (with_stack s2 err) req)).
Proof.
  unfold classify, precedence, errorHandler. simpl.
  destruct (is_str (name err) "CastError"); [discriminate |].
  destruct (is_num (code err) 11000); [discriminate |].
  destruct (is_str (name err) "ValidationError"); [discriminate |].
  destruct (is_str (name err) "JsonWebTokenError"); [discriminate |].
  destruct (is_str (name err) "TokenExpiredError"); [discriminate |].
  intros _. do 2 eexists. split; [reflexivity |].
  pose proof (development_iff env) as Hdev.
  destruct (development env) eqn:Hd; simpl.
  - assert (Henv : NODE_ENV env = Some "development") by (apply Hdev; reflexivity).
    split; [| split].
    + split; [intros _; exact Henv | intros _; eexists; reflexivity].
    + intros _. reflexivity.
    + intros Hne. contradiction.
  - assert (Henv : NODE_ENV env <> Some "development").
    { intros H. apply Hdev in H. discriminate. }
    split; [| split].
    + split; [intros [x Hx]; discriminate | intros H; contradiction].
    + intros H. contradiction.
    + intros _ s1 s2. reflexivity.
Qed.

(** In development the stack is answered, in production it is not, and in
    production the stack makes no difference. *)
Lemma default_branch_stack_only_in_development_witness :
  (exists status fields,
     snd (errorHandler Sample.dev_env
            (Sample.plain_error "Test error" "Error stack trace") Sample.info)
     = Returns (Respond status (VObj fields))
     /\ field "stack" fields = Some (VStr "Error stack trace"))
  /\ (exists status fields,
     snd (errorHandler Sample.env
            (Sample.plain_error "Test error" "Error stack trace") Sample.info)
     = Returns (Respond status (VObj fields))
     /\ field "stack" fields = None
     /\ snd (errorHandler Sample.env
               (with_stack (VStr "at secret (internal.js:1:1)")
                  (Sample.plain_error "Test error" "Error stack trace"))
               Sample.info)
        = snd (errorHandler Sample.env
                 (with_stack VUndefined
                    (Sample.plain_error "Test error" "Error stack trace"))
                 Sample.info)).
Proof.
  split.
  - destruct (default_branch_stack_only_in_development Sample.dev_env
                (Sample.plain_error "Test error" "Error stack trace")
                Sample.info eq_refl)
      as (status & fields & Hr & _ & Hdev & _).
    exists status, fields. split; [exact Hr | exact (Hdev eq_refl)].
  - destruct (default_branch_stack_only_in_development Sample.env
                (Sample.plain_error "Test error" "Error stack trace")
                Sample.info eq_refl)
      as (status & fields & Hr & Hiff & _ & Hni).
    exists status, fields. split; [exact Hr | split].
    + destruct (field "stack" fields) as [v |] eqn:Hf; [| reflexivity].
      assert (H : is_Some (Some v)) by (eexists; reflexivity).
      apply Hiff in H. discriminate H.
    + apply Hni. discriminate.
Defined.

(** The handler's tests: a duplicate email, and two failed fields. *)
Lemma errorHandler_follows_precedence_witness :
  snd (errorHandler Sample.env Sample.duplicate_email Sample.info)
  = Returns (Respond (VNum 400)
      (VObj [("error", VStr "Duplicate field value");
             ("details", VStr "email already exists")]))
  /\ snd (errorHandler Sample.env Sample.validation_error Sample.info)
  = Returns (Respond (VNum 400)
      (VObj [("error", VStr "Validation error");
             ("details", VArr [VStr "Email is required";
                               VStr "Password is required"])]))
  /\ snd (errorHandler Sample.env Sample.cast_and_duplicate Sample.info)
  = Returns (Respond (VNum 400)
      (VObj [("error", VStr "Invalid ID format");
             ("details", VStr "Cast to ObjectId failed")])).
Proof.
  split; [| split].
  - apply (errorHandler_follows_precedence Sample.env Sample.duplicate_email
             Sample.info eq_refl).
  - apply (errorHandler_follows_precedence Sample.env Sample.validation_error
             Sample.info eq_refl).
  - apply (errorHandler_follows_precedence Sample.env Sample.cast_and_duplicate
             Sample.info eq_refl).
Defined.

(** An error with the duplicate-key code and no key pattern is classified
    as a duplicate key, and the handler throws instead of answering; so
    does it on a validation error without an errors object. *)
Lemma errorHandler_throws_without_key_pattern :
  classify Sample.duplicate_without_pattern = Some DuplicateKeyShape
  /\ snd (errorHandler Sample.env Sample.duplicate_without_pattern Sample.info)
     = Throws (TypeError "Cannot convert undefined or null to object")
  /\ classify Sample.validation_without_errors = Some ValidationShape
  /\ snd (errorHandler Sample.env Sample.validation_without_errors Sample.info)
     = Throws (TypeError "Cannot convert undefined or null to object").
Proof. repeat split. Qed.

(** The handler logs exactly one record, whatever it answers. *)
Lemma errorHandler_logs_once (env : Env) (err : JsError) (req : RequestInfo) :
  fst (errorHandler env err req)
  = [ {| log_message := message err; log_stack := stack err;
         log_url := originalUrl req; log_method := method req;
         log_ip := ip req |} ].
Proof. reflexivity. Qed.

End ErrorHandlerFacts.

(* ===================================================================== *)
(** ** Properties of the slug *)
(* ===================================================================== *)

Module PostModelFacts.
Import PostModel.

Lemma alphanumeric_not_hyphen (c : ascii) :
  is_alphanumeric c = true -> Ascii.eqb c "-" = false.
Proof.
  destruct c as [[] [] [] [] [] [] [] []]; vm_compute; congruence.
Qed.

Lemma collapse_slug_chars (s : string) :
  forall in_run, all_chars is_slug_char (collapse in_run s) = true.
Proof.
  induction s as [| c rest IH]; intros in_run; simpl; [reflexivity |].
  destruct (is_alphanumeric c) eqn:Hc; simpl.
  - unfold is_slug_char at 1. rewrite Hc. simpl. apply IH.
  - destruct in_run; simpl; apply IH.
Qed.

Lemma collapse_single_hyphens (s : string) :
  forall in_run, single_hyphens in_run (collapse in_run s) = true.
Proof.
  induction s as [| c rest IH]; intros in_run; simpl; [reflexivity |].
  destruct (is_alphanumeric c) eqn:Hc; simpl.
  - rewrite (alphanumeric_not_hyphen c Hc). apply IH.
  - destruct in_run; simpl; apply IH.
Qed.

Lemma collapse_keeps_alphanumerics (s : string) :
  forall in_run,
    keep_chars is_alphanumeric (collapse in_run s) = keep_chars is_alphanumeric s.
Proof.
  induction s as [| c rest IH]; intros in_run; simpl; [reflexivity |].
  destruct (is_alphanumeric c) eqn:Hc; simpl.
  - rewrite Hc. f_equal. apply IH.
  - destruct in_run; simpl; apply IH.
Qed.

(** C8. The slug derived at creation is the lowercased title with every
    run of non-alphanumeric characters collapsed to one hyphen: it is made
    of lowercase letters, digits and hyphens only, it has no two hyphens in
    a row, and its letters and digits are those of the lowercased title in
    order. "Test Post! @#$ Title" and "Test    Post    Title" both give
    "test-post-title". *)
Theorem slug_collapses_runs (title : string) :
  slug_at_creation title None = collapse false (toLowerCase title)
  /\ all_chars is_slug_char (slug_at_creation title None) = true
  /\ single_hyphens false (slug_at_creation title None) = true
  /\ keep_chars is_alphanumeric (slug_at_creation title None)
     = keep_chars is_alphanumeric (toLowerCase title)
  /\ slug_at_creation "Test Post! @#$ Title" None = "test-post-title"
  /\ slug_at_creation "Test    Post    Title" None = "test-post-title".
Proof.
  unfold slug_at_creation, slugify.
  split; [reflexivity |].
  split; [apply collapse_slug_chars |].
  split; [apply collapse_single_hyphens |].
  split; [apply collapse_keeps_alphanumerics |].
  split; reflexivity.
Qed.

(** The other titles of the model's tests. *)
Example slug_lowercases : slugify "Test POST Title" = "test-post-title".
Proof. reflexivity. Qed.

Example slug_updated_title : slugify "Updated Title" = "updated-title".
Proof. reflexivity. Qed.

(** A slug that was supplied is kept. *)
Example slug_supplied : slug_at_creation "Test Post" (Some "custom-slug") = "custom-slug".
Proof. reflexivity. Qed.

End PostModelFacts.

(* ===================================================================== *)
(** ** Properties of controllers/postsController.js *)
(* ===================================================================== *)

Module PostsControllerFacts.
Import Js Http PostsController.

(** The ownership check, spelled out. *)
Lemma forbidden_iff (author_id : string) (u : User) :
  forbidden author_id u = true
  <-> author_id <> user_id u /\ role u <> "admin".
Proof.
  unfold forbidden. rewrite andb_true_iff, !negb_true_iff, !String.eqb_neq.
  reflexivity.
Qed.

Section Facts.

Variable DB : Type.
Variable Post_findById : string -> Query DB (option Doc).
Variable Post_findByIdAndUpdate : string -> Doc -> Query DB value.
Variable Post_deleteOne : Doc -> Query DB unit.

Abbreviation updatePost :=
  (updatePost DB Post_findById Post_findByIdAndUpdate).
Abbreviation deletePost := (deletePost DB Post_findById Post_deleteOne).

(** A request with validation errors is answered 400 before the post is
    looked up. *)
Lemma updatePost_validation_first (req : Request) (db : DB) :
  validation_errors req <> [] ->
  updatePost req db = (validation_failed req, db).
Proof.
  intros H. unfold PostsController.updatePost, catch_next.
  destruct (validation_errors req); [congruence | reflexivity].
Qed.

(** What [deletePost] does with a post it found. *)
Lemma deletePost_found (req : Request) (db db1 : DB) (post : Doc)
    (author_id : string) (u : User) :
  run (Post_findById (params_id req)) db = (Returns (Some post), db1) ->
  field "author" post = Some (VStr author_id) ->
  user req = Some u ->
  deletePost req db =
    if forbidden author_id u then
      (Respond (VNum 403) (error_body "Not authorized to delete this post"), db1)
    else
      match run (Post_deleteOne post) db1 with
      | (Returns _, db2) => (post_deleted, db2)
      | (Throws e, db2) => (NextError e, db2)
      end.
Proof.
  intros Hfind Hauthor Huser.
  unfold PostsController.deletePost, catch_next, requester. simpl.
  rewrite Hfind. simpl. rewrite Hauthor, Huser. simpl.
  destruct (forbidden author_id u); simpl; [reflexivity |].
  destruct (run (Post_deleteOne post) db1) as [[[] | e] db2]; reflexivity.
Qed.

(** What [updatePost] does with a valid request and a post it found. *)
Lemma updatePost_found (req : Request) (db db1 : DB) (post : Doc)
    (author_id : string) (u : User) :
  validation_errors req = [] ->
  run (Post_findById (params_id req)) db = (Returns (Some post), db1) ->
  field "author" post = Some (VStr author_id) ->
  user req = Some u ->
  updatePost req db =
    if forbidden author_id u then
      (Respond (VNum 403) (error_body "Not authorized to update this post"), db1)
    else
      match run (Post_findByIdAndUpdate (params_id req)
                   (update_document (body req))) db1 with
      | (Returns updated, db2) => (Respond (VNum 200) updated, db2)
      | (Throws e, db2) => (NextError e, db2)
      end.
Proof.
  intros Hvalid Hfind Hauthor Huser.
  unfold PostsController.updatePost, catch_next, requester. rewrite Hvalid. simpl.
  rewrite Hfind. simpl. rewrite Hauthor, Huser. simpl.
  destruct (forbidden author_id u); simpl; [reflexivity |].
  destruct (run (Post_findByIdAndUpdate (params_id req)
                   (update_document (body req))) db1) as [[updated | e] db2];
    reflexivity.
Qed.

(** C2, as the code has it. For an existing post and an authenticated
    requester, [deletePost] answers 403 exactly when the requester is not
    the author and not an admin, and otherwise 200 once the deletion has
    gone through; [updatePost] does the same for a request that passed
    validation, answering 200 once the update has gone through. *)
Theorem update_delete_access_control (req : Request) (db db1 : DB)
    (post : Doc) (author_id : string) (u : User) :
  run (Post_findById (params_id req)) db = (Returns (Some post), db1) ->
  field "author" post = Some (VStr author_id) ->
  user req = Some u ->
  ((status_of (fst (deletePost req db)) = Some (VNum 403)
    <-> author_id <> user_id u /\ role u <> "admin")
   /\ (author_id = user_id u \/ role u = "admin" ->
       forall db2,
         run (Post_deleteOne post) db1 = (Returns tt, db2) ->
         deletePost req db = (post_deleted, db2)))
  /\ (validation_errors req = [] ->
      (status_of (fst (updatePost req db)) = Some (VNum 403)
       <-> author_id <> user_id u /\ role u <> "admin")
      /\ (author_id = user_id u \/ role u = "admin" ->
          forall updated db2,
            run (Post_findByIdAndUpdate (params_id req)
                   (update_document (body req))) db1
            = (Returns updated, db2) ->
            updatePost req db = (Respond (VNum 200) updated, db2))).
Proof.
  intros Hfind Hauthor Huser.
  assert (Hallowed : author_id = user_id u \/ role u = "admin" ->
                     forbidden author_id u = false).
  { intros [H | H]; unfold forbidden; rewrite H, String.eqb_refl.
    - reflexivity.
    - apply andb_false_r. }
  split; [| intros Hvalid].
  - rewrite (deletePost_found req db db1 post author_id u Hfind Hauthor Huser).
    rewrite <- forbidden_iff.
    split.
    + destruct (forbidden author_id u); simpl.
      * split; reflexivity.
      * destruct (run (Post_deleteOne post) db1) as [[[] | e] db2]; simpl;
          split; discriminate.
    + intros Hok db2 Hdel. rewrite (Hallowed Hok), Hdel. reflexivity.
  - rewrite (updatePost_found req db db1 post author_id u
               Hvalid Hfind Hauthor Huser).
    rewrite <- forbidden_iff.
    split.
    + destruct (forbidden author_id u); simpl.
      * split; reflexivity.
      * destruct (run (Post_findByIdAndUpdate (params_id req)
                         (update_document (body req))) db1)
          as [[updated | e] db2]; simpl; split; discriminate.
    + intros Hok updated db2 Hupd. rewrite (Hallowed Hok), Hupd. reflexivity.
Qed.

(** The only write [updatePost] makes is one [findByIdAndUpdate] with the
    five-key update object; on every other path the database is as the
    lookup left it. *)
Lemma updatePost_writes_through_update_document (req : Request) (db : DB) :
  snd (updatePost req db) = db
  \/ snd (updatePost req db) = snd (run (Post_findById (params_id req)) db)
  \/ (exists db1 found,
        run (Post_findById (params_id req)) db = (found, db1)
        /\ snd (updatePost req db)
           = snd (run (Post_findByIdAndUpdate (params_id req)
                         (update_document (body req))) db1)).
Proof.
  unfold PostsController.updatePost, catch_next.
  destruct (isEmpty (validation_errors req)); simpl; [| left; reflexivity].
  destruct (run (Post_findById (params_id req)) db) as [[[post |] | e] db1] eqn:Hf;
    simpl; try (right; left; reflexivity).
  destruct (call_toString (of_option (field "author" post))) as [a | e]; simpl;
    try (right; left; reflexivity).
  destruct (requester req) as [u | e]; simpl; try (right; left; reflexivity).
  destruct (forbidden a u); simpl; try (right; left; reflexivity).
  right; right. exists db1, (Returns (Some post)). split; [reflexivity |].
  destruct (run (Post_findByIdAndUpdate (params_id req)
                   (update_document (body req))) db1) as [[updated | e] db2];
    reflexivity.
Qed.


End Facts.

End PostsControllerFacts.

(* ===================================================================== *)
(** ** The handlers over the in-memory collection *)
(* ===================================================================== *)

Module MemDbFacts.
Import Js Http PostsController.




(** An update that names a path of the schema with a defined value sets
    it: the store would change the author if it were asked to. *)
Example apply_update_can_set_author :
  field "author"
    (MemDb.apply_update [("author", VStr Sample.bob_id)] Sample.alice_post)
  = Some (VStr Sample.bob_id).
Proof. reflexivity. Qed.









(** Bob, who is neither the author nor an admin, is refused; the admin's
    deletion and the author's update go through. *)
Lemma update_delete_access_control_witness :
  status_of (fst (MemDb.deletePost (Sample.request_by Sample.bob [] []) Sample.db))
    = Some (VNum 403)
  /\ status_of (fst (MemDb.updatePost Sample.accept_all
                      (Sample.request_by Sample.bob Sample.new_content [])
                      Sample.db))
    = Some (VNum 403)
  /\ MemDb.deletePost (Sample.request_by Sample.root [] []) Sample.db
    = (post_deleted,
       MemDb.with_posts (delete Sample.post_id (MemDb.posts Sample.db)) Sample.db)
  /\ status_of (fst (MemDb.updatePost Sample.accept_all
                      (Sample.request_by Sample.alice Sample.new_content [])
                      Sample.db))
    = Some (VNum 200).
Proof.
  pose proof (fun req u =>
    PostsControllerFacts.update_delete_access_control
      MemDb.DB MemDb.findById (MemDb.findByIdAndUpdate Sample.accept_all)
      MemDb.deleteOne req Sample.db Sample.db Sample.alice_post
      Sample.alice_id u) as access.
  assert (Hfound : forall (b : list (string * value)) (u : User),
    run (MemDb.findById (params_id (Sample.request_by u b []))) Sample.db
    = (Returns (Some Sample.alice_post), Sample.db)).
  { intros b u. vm_compute. reflexivity. }
  split; [| split; [| split]].
  - destruct (access (Sample.request_by Sample.bob [] []) Sample.bob
                (Hfound [] Sample.bob) eq_refl eq_refl) as [[Hiff _] _].
    apply Hiff. split; discriminate.
  - destruct (access (Sample.request_by Sample.bob Sample.new_content [])
                Sample.bob (Hfound Sample.new_content Sample.bob)
                eq_refl eq_refl) as [_ Hupd].
    destruct (Hupd eq_refl) as [Hiff _].
    apply Hiff. split; discriminate.
  - destruct (access (Sample.request_by Sample.root [] []) Sample.root
                (Hfound [] Sample.root) eq_refl eq_refl) as [[_ Hok] _].
    apply Hok; [right; reflexivity | reflexivity].
  - destruct (access (Sample.request_by Sample.alice Sample.new_content [])
                Sample.alice (Hfound Sample.new_content Sample.alice)
                eq_refl eq_refl) as [_ Hupd].
    destruct (Hupd eq_refl) as [_ Hok].
    unfold MemDb.updatePost.
    erewrite Hok; [reflexivity | left; reflexivity | reflexivity].
Defined.

(** Bob's update of Alice's post with a title that fails validation is
    answered 400, not 403; and so is Alice's own, not 200. Alice's valid
    update with a category that is no ObjectId is not answered 200 either:
    the store's cast error goes to [next]. *)
Lemma updatePost_validates_before_ownership :
  MemDb.posts Sample.db !! Sample.post_id = Some Sample.alice_post
  /\ forbidden Sample.alice_id Sample.bob = true
  /\ MemDb.updatePost Sample.accept_all
       (Sample.request_by Sample.bob
          [("title", VStr "ab"); ("content", VStr "This is valid content")]
          [Sample.title_too_short])
       Sample.db
     = (Respond (VNum 400)
          (VObj [("error", VStr "Validation failed");
                 ("details", VArr [Sample.title_too_short])]),
        Sample.db)
  /\ MemDb.updatePost Sample.accept_all
       (Sample.request_by Sample.alice
          [("title", VStr "ab"); ("content", VStr "This is valid content")]
          [Sample.title_too_short])
       Sample.db
     = (Respond (VNum 400)
          (VObj [("error", VStr "Validation failed");
                 ("details", VArr [Sample.title_too_short])]),
        Sample.db)
  /\ MemDb.updatePost Sample.cast_category
       (Sample.request_by Sample.alice
          (("category", VStr "news") :: Sample.new_content) [])
       Sample.db
     = (NextError (MemDb.cast_error "news"), Sample.db).
Proof.
  split; [vm_compute; reflexivity |].
  split; [reflexivity |].
  split; [reflexivity |].
  split; [reflexivity |].
  vm_compute. reflexivity.
Qed.

(** Alice's update with a body that also names an author and a slug: the
    title and the content change and the slug follows the title; the author
    and the slug of the body are not written. *)
Example updatePost_ignores_author_in_body :
  let body := [("title", VStr "Updated Title");
               ("content", VStr "This is updated post content.");
               ("author", VStr Sample.bob_id);
               ("slug", VStr "stolen")] in
  MemDb.posts
    (snd (MemDb.updatePost Sample.accept_all
            (Sample.request_by Sample.alice body []) Sample.db))
    !! Sample.post_id
  = Some [("_id", VStr Sample.post_id);
          ("title", VStr "Updated Title");
          ("content", VStr "This is updated post content.");
          ("slug", VStr "updated-title");
          ("tags", VArr []);
          ("published", VBool false);
          ("author", VStr Sample.alice_id);
          ("createdAt", VNum 1000);
          ("updatedAt", VNum 2000)].
Proof. vm_compute. reflexivity. Qed.

End MemDbFacts.

(* ===================================================================== *)
(** ** More on middleware/auth.js: the calls it makes, and authorize *)
(* ===================================================================== *)

Module AuthMiddlewareExtras.
Import Js Http AuthMiddleware.

Lemma split_components_without_separator (sep : ascii) (s : string) :
  Forall (fun w => includes_char sep w = false) (split sep s).
Proof.
  induction s as [| c rest IH]; simpl.
  - repeat constructor.
  - destruct (Ascii.eqb c sep) eqn:Hc.
    + constructor; [reflexivity | exact IH].
    + destruct (split sep rest) as [| w ws].
      * repeat constructor. simpl. rewrite Hc. reflexivity.
      * inversion IH as [| ? ? Hw Hws]; subst.
        constructor; [| exact Hws]. simpl. rewrite Hc, Hw. reflexivity.
Qed.

Lemma bearer_token_shape (req : Request) :
  truthy (bearer_token req) = true ->
  exists tok, bearer_token req = VStr tok
              /\ tok <> ""
              /\ includes_char " " tok = false.
Proof.
  unfold bearer_token.
  destruct (authorization req) as [h |]; [| discriminate].
  destruct (truthy (VStr h) && startsWith h "Bearer"); [| discriminate].
  unfold index. destruct (nth_error (split " " h) 1) as [tok |] eqn:Hn;
    [| discriminate].
  intros Ht. exists tok. split; [reflexivity |]. split.
  - intros ->. discriminate Ht.
  - pose proof (split_components_without_separator " " h) as Hall.
    rewrite Forall_forall in Hall. apply Hall.
    apply list_elem_of_In. eapply nth_error_In. exact Hn.
Qed.

Section Facts.

Variable verifyToken : value -> completion value.
Variable User_findById : value -> completion (option User).

Abbreviation protect := (protect verifyToken User_findById).

Lemma protect_unfold (req : Request) :
  protect req =
    if truthy (bearer_token req) then
      match verifyToken (bearer_token req) with
      | Throws _ =>
          Tr [CallVerifyToken (bearer_token req)]
             (Returns (Respond (VNum 401) not_authorized))
      | Returns decoded =>
          match get_prop decoded "id" with
          | Throws _ =>
              Tr [CallVerifyToken (bearer_token req)]
                 (Returns (Respond (VNum 401) not_authorized))
          | Returns id =>
              Tr [CallVerifyToken (bearer_token req); CallFindById id]
                 (Returns
                    match User_findById id with
                    | Throws _ => Respond (VNum 401) not_authorized
                    | Returns None => Respond (VNum 401) user_not_found
                    | Returns (Some u) =>
                        Next (set_user req (select_minus_password u))
                    end)
          end
      end
    else rejected.
Proof.
  unfold AuthMiddleware.protect.
  destruct (truthy (bearer_token req)); simpl; [| reflexivity].
  destruct (verifyToken (bearer_token req)) as [decoded | e]; simpl; [| reflexivity].
  destruct (get_prop decoded "id") as [id | e]; simpl; [| reflexivity].
  destruct (User_findById id) as [[u |] | e]; reflexivity.
Qed.

(** X1. [protect] makes no call at all, or verifies one token, or verifies
    one token and then looks one user up. The token it verifies is a
    non-empty string without a space, and the lookup happens only after
    the verification returned, with the [id] of the verified claims. *)
Theorem protect_call_discipline (req : Request) :
  calls_of (protect req) = []
  \/ exists tok,
       bearer_token req = VStr tok
       /\ tok <> ""
       /\ includes_char " " tok = false
       /\ (calls_of (protect req) = [CallVerifyToken (VStr tok)]
           \/ exists decoded id,
                verifyToken (VStr tok) = Returns decoded
                /\ get_prop decoded "id" = Returns id
                /\ calls_of (protect req)
                   = [CallVerifyToken (VStr tok); CallFindById id]).
Proof.
  rewrite protect_unfold.
  destruct (truthy (bearer_token req)) eqn:Ht; [| left; reflexivity].
  right. destruct (bearer_token_shape req Ht) as (tok & Htok & Hne & Hsp).
  exists tok. rewrite Htok.
  split; [reflexivity |]. split; [exact Hne |]. split; [exact Hsp |].
  destruct (verifyToken (VStr tok)) as [decoded | e]; [| left; reflexivity].
  destruct (get_prop decoded "id") as [id | e] eqn:Hid; [| left; reflexivity].
  right. exists decoded, id. repeat split; assumption.
Qed.

(** X2. When [protect] calls [next], the token verified, the store returned
    a user for the claims' id, exactly those two calls were made, and the
    request passed on is the incoming one with that user attached, the
    password hash removed. *)
Theorem protect_passes_verified_user (req req' : Request) (calls : list Call) :
  protect req = Tr calls (Returns (Next req')) ->
  exists decoded id u,
    verifyToken (bearer_token req) = Returns decoded
    /\ get_prop decoded "id" = Returns id
    /\ User_findById id = Returns (Some u)
    /\ calls = [CallVerifyToken (bearer_token req); CallFindById id]
    /\ user req' = Some (select_minus_password u)
    /\ (forall v, user req' = Some v -> password v = None
                   /\ user_id v = user_id u /\ role v = role u)
    /\ authorization req' = authorization req
    /\ params_id req' = params_id req
    /\ body req' = body req.
Proof.
  rewrite protect_unfold.
  destruct (truthy (bearer_token req)); [| discriminate].
  destruct (verifyToken (bearer_token req)) as [decoded | e]; [| discriminate].
  destruct (get_prop decoded "id") as [id | e] eqn:Hid; [| discriminate].
  destruct (User_findById id) as [[u |] | e] eqn:Hf; try discriminate.
  intros H. injection H as Hcalls Hreq. subst calls req'.
  exists decoded, id, u. simpl.
  repeat split; try reflexivity; try assumption;
    intros; match goal with H : Some _ = Some _ |- _ => injection H as <- end;
    reflexivity.
Qed.

(** X3. A token that verifies for a user the store no longer has is
    answered 401 with the message "User not found", after one verification
    and one lookup; [next] is not called. *)
Theorem protect_user_not_found (req : Request) (decoded id : value) :
  truthy (bearer_token req) = true ->
  verifyToken (bearer_token req) = Returns decoded ->
  get_prop decoded "id" = Returns id ->
  User_findById id = Returns None ->
  protect req
  = Tr [CallVerifyToken (bearer_token req); CallFindById id]
       (Returns (Respond (VNum 401) (error_body "User not found")))
  /\ error_body "User not found" <> not_authorized.
Proof.
  intros Ht Hv Hid Hf. rewrite protect_unfold, Ht, Hv, Hid, Hf.
  split; [reflexivity | discriminate].
Qed.

(** X4. On a request that [protect] passed on, [authorize] never throws:
    it passes the request on unchanged when the user's role is among the
    allowed ones, and answers 403 with a message naming the role
    otherwise. *)
Theorem authorize_after_protect (req req' : Request) (calls : list Call)
    (roles : list string) :
  protect req = Tr calls (Returns (Next req')) ->
  exists u,
    user req' = Some u
    /\ (In (role u) roles -> authorize roles req' = Returns (Next req'))
    /\ (~ In (role u) roles ->
        authorize roles req'
        = Returns (Respond (VNum 403)
            (error_body ("User role '" ++ role u
                         ++ "' is not authorized to access this route")))).
Proof.
  intros Hp.
  destruct (AuthMiddlewareFacts.protect_next_only_verified
              verifyToken User_findById req req' calls Hp)
    as (decoded & id & u & _ & _ & _ & Hreq).
  assert (Hu : user req' = Some (select_minus_password u))
    by (rewrite Hreq; reflexivity).
  exists (select_minus_password u). split; [exact Hu |].
  unfold authorize. rewrite Hu.
  destruct (existsb (String.eqb (role (select_minus_password u))) roles) eqn:He.
  - split; [reflexivity |]. intros Hn. exfalso. apply Hn.
    apply existsb_exists in He as (r & Hin & Hr).
    apply String.eqb_eq in Hr. rewrite Hr. exact Hin.
  - split; [| reflexivity]. intros Hin. exfalso.
    assert (Ht : existsb (String.eqb (role (select_minus_password u))) roles = true).
    { apply existsb_exists. eexists. split; [exact Hin | apply String.eqb_refl]. }
    congruence.
Qed.

End Facts.

Lemma alice_passes :
  AuthMiddleware.protect Sample.verifyToken Sample.User_findById Sample.alice_request
  = Tr [CallVerifyToken (VStr Sample.alice_token);
        CallFindById (VStr Sample.alice_id)]
       (Returns (Next (set_user Sample.alice_request
                         (select_minus_password Sample.alice)))).
Proof. vm_compute. reflexivity. Qed.

(** Alice's token: her document is attached, without the hash. *)
Lemma protect_passes_verified_user_witness :
  exists decoded id u,
    Sample.verifyToken (bearer_token Sample.alice_request) = Returns decoded
    /\ get_prop decoded "id" = Returns id
    /\ Sample.User_findById id = Returns (Some u)
    /\ [CallVerifyToken (VStr Sample.alice_token);
        CallFindById (VStr Sample.alice_id)]
       = [CallVerifyToken (bearer_token Sample.alice_request); CallFindById id]
    /\ user (set_user Sample.alice_request (select_minus_password Sample.alice))
       = Some (select_minus_password u)
    /\ (forall v,
          user (set_user Sample.alice_request (select_minus_password Sample.alice))
          = Some v ->
          password v = None /\ user_id v = user_id u /\ role v = role u)
    /\ authorization (set_user Sample.alice_request (select_minus_password Sample.alice))
       = authorization Sample.alice_request
    /\ params_id (set_user Sample.alice_request (select_minus_password Sample.alice))
       = params_id Sample.alice_request
    /\ body (set_user Sample.alice_request (select_minus_password Sample.alice))
       = body Sample.alice_request.
Proof.
  exact (protect_passes_verified_user Sample.verifyToken Sample.User_findById
           Sample.alice_request _ _ alice_passes).
Defined.

(** A token for an id the store does not have. *)
Lemma protect_user_not_found_witness :
  AuthMiddleware.protect Sample.verifyToken Sample.User_findById
    (Sample.request_with (Some "Bearer ghost.fresh.test-secret"))
  = Tr [CallVerifyToken
          (bearer_token (Sample.request_with (Some "Bearer ghost.fresh.test-secret")));
        CallFindById (VStr "ghost")]
       (Returns (Respond (VNum 401) (error_body "User not found")))
  /\ error_body "User not found" <> not_authorized.
Proof.
  apply (protect_user_not_found Sample.verifyToken Sample.User_findById
           (Sample.request_with (Some "Bearer ghost.fresh.test-secret"))
           (VObj [("id", VStr "ghost"); ("email", VStr "ghost@example.com")])
           (VStr "ghost")).
  - reflexivity.
  - reflexivity.
  - reflexivity.
  - vm_compute. reflexivity.
Defined.

(** Alice, a plain user, passes [authorize('user', 'admin')] and is refused
    by [authorize('admin')]. *)
Lemma authorize_after_protect_witness :
  authorize ["user"; "admin"]
    (set_user Sample.alice_request (select_minus_password Sample.alice))
  = Returns (Next (set_user Sample.alice_request (select_minus_password Sample.alice)))
  /\ authorize ["admin"]
    (set_user Sample.alice_request (select_minus_password Sample.alice))
  = Returns (Respond (VNum 403)
      (error_body "User role 'user' is not authorized to access this route")).
Proof.
  split.
  - destruct (authorize_after_protect Sample.verifyToken Sample.User_findById
                Sample.alice_request _ _ ["user"; "admin"] alice_passes)
      as (u & Hu & Hin & _).
    injection Hu as <-. apply Hin. left. reflexivity.
  - destruct (authorize_after_protect Sample.verifyToken Sample.User_findById
                Sample.alice_request _ _ ["admin"] alice_passes)
      as (u & Hu & _ & Hout).
    injection Hu as <-. apply Hout.
    intros [H | []]. discriminate H.
Defined.

End AuthMiddlewareExtras.

(* ===================================================================== *)
(** ** More on middleware/errorHandler.js *)
(* ===================================================================== *)

Module ErrorHandlerExtras.
Import Js Http ErrorHandler.

(** X5. An error of one of the five listed shapes is answered 400 or 401
    with exactly the two fields [error] and [details]: the status code the
    error declares is not used, and the stack is not sent, not even in
    development. *)
Theorem classified_errors_hide_stack
    (env : Env) (err : JsError) (req : RequestInfo) (status json : value) :
  classify err <> None ->
  snd (errorHandler env err req) = Returns (Respond status json) ->
  (status = VNum 400 \/ status = VNum 401)
  /\ exists error details,
       json = VObj [("error", VStr error); ("details", details)]
       /\ field "stack" [("error", VStr error); ("details", details)] = None.
Proof.
  unfold classify, precedence, errorHandler. simpl.
  destruct (is_str (name err) "CastError").
  { intros _ H. injection H as <- <-. split; [left; reflexivity |].
    do 2 eexists. split; reflexivity. }
  destruct (is_num (code err) 11000).
  { intros _. destruct (object_keys (keyPattern err)) as [keys | e]; simpl;
      [| discriminate].
    intros H. injection H as <- <-. split; [left; reflexivity |].
    do 2 eexists. split; reflexivity. }
  destruct (is_str (name err) "ValidationError").
  { intros _. destruct (object_values (errors err)) as [entries | e]; simpl;
      [| discriminate].
    destruct (map_m (fun e => get_prop e "message") entries) as [messages | e];
      simpl; [| discriminate].
    intros H. injection H as <- <-. split; [left; reflexivity |].
    do 2 eexists. split; reflexivity. }
  destruct (is_str (name err) "JsonWebTokenError").
  { intros _ H. injection H as <- <-. split; [right; reflexivity |].
    do 2 eexists. split; reflexivity. }
  destruct (is_str (name err) "TokenExpiredError").
  { intros _ H. injection H as <- <-. split; [right; reflexivity |].
    do 2 eexists. split; reflexivity. }
  intros H. contradiction.
Qed.

(** A malformed-token error that declares 403, in development: 401, and no
    stack. *)
Lemma classified_errors_hide_stack_witness :
  (VNum 401 = VNum 400 \/ VNum 401 = VNum 401)
  /\ exists error details,
       VObj [("error", VStr "Invalid token"); ("details", VStr "jwt malformed")]
       = VObj [("error", VStr error); ("details", details)]
       /\ field "stack" [("error", VStr error); ("details", details)] = None.
Proof.
  apply (classified_errors_hide_stack Sample.dev_env
           Sample.token_error_with_status Sample.info).
  - discriminate.
  - reflexivity.
Defined.

Section VerifyThenNormalize.

Variable env : Env.
Variable jwt_verify : Z -> value -> value -> completion value.

(** X6. Whatever makes [verifyToken] throw, its error is none of the five
    listed shapes: if it reaches the error handler it is answered on the
    default branch, 500 with the message "Invalid token", and never by the
    401 of the two token branches. *)
Theorem verifyToken_error_is_answered_500
    (handler_env : Env) (now : Z) (token : value) (e : JsError)
    (req : RequestInfo) :
  AuthUtils.verifyToken env jwt_verify now token = Throws e ->
  classify e = None
  /\ exists rest,
       snd (errorHandler handler_env e req)
       = Returns (Respond (VNum 500)
                    (VObj (("error", VStr "Invalid token") :: rest))).
Proof.
  intros H.
  apply (AuthUtilsFacts.verifyToken_throws_only_invalid env jwt_verify) in H.
  subst e. split; [reflexivity |].
  unfold errorHandler. simpl. eexists. reflexivity.
Qed.

End VerifyThenNormalize.

(** An expired token: [verifyToken]'s error is answered 500. *)
Lemma verifyToken_error_is_answered_500_witness :
  classify (Error "Invalid token") = None
  /\ exists rest,
       snd (errorHandler Sample.env (Error "Invalid token") Sample.info)
       = Returns (Respond (VNum 500)
                    (VObj (("error", VStr "Invalid token") :: rest))).
Proof.
  apply (verifyToken_error_is_answered_500 Sample.env Sample.jwt_verify
           Sample.env 0 (VStr "alice.stale.test-secret")).
  reflexivity.
Defined.

End ErrorHandlerExtras.

(* ===================================================================== *)
(** ** More on controllers/postsController.js and its routes *)
(* ===================================================================== *)

Module PostsControllerExtras.
Import Js Http AuthMiddleware PostsController.

Section Facts.

Variable DB : Type.
Variable Post_findById : string -> Query DB (option Doc).
Variable Post_findByIdAndUpdate : string -> Doc -> Query DB value.
Variable Post_deleteOne : Doc -> Query DB unit.
Variable Post_findById_populate : value -> Query DB value.
Variable Post_create : Doc -> Query DB value.

Abbreviation updatePost := (updatePost DB Post_findById Post_findByIdAndUpdate).
Abbreviation deletePost := (deletePost DB Post_findById Post_deleteOne).
Abbreviation getPost := (getPost DB Post_findById_populate).
Abbreviation createPost := (createPost DB Post_findById_populate Post_create).

(** X7. When the lookup of [getPost] rejects with a cast error (an id that
    is no ObjectId), [getPost] hands it to [next], and the error handler
    answers it 400 "Invalid ID format" with the error's message. *)
Theorem getPost_cast_error_is_400
    (env : Env) (req : Request) (db db' : DB) (e : JsError)
    (info : ErrorHandler.RequestInfo) :
  run (Post_findById_populate (VStr (params_id req))) db = (Throws e, db') ->
  name e = VStr "CastError" ->
  getPost req db = (NextError e, db')
  /\ snd (ErrorHandler.errorHandler env e info)
     = Returns (Respond (VNum 400)
         (VObj [("error", VStr "Invalid ID format"); ("details", message e)])).
Proof.
  intros Hrun Hname. split.
  - unfold PostsController.getPost, catch_next. simpl. rewrite Hrun. reflexivity.
  - unfold ErrorHandler.errorHandler. simpl. rewrite Hname. reflexivity.
Qed.

Lemma createPost_unfold (req : Request) (db : DB) :
  createPost req db =
    if isEmpty (validation_errors req) then
      match user req with
      | None =>
          (NextError (TypeError "Cannot read properties of undefined (reading 'id')"),
           db)
      | Some u =>
          match run (Post_create (create_document (body req) (user_id u))) db with
          | (Throws e, db1) => (NextError e, db1)
          | (Returns post, db1) =>
              match get_prop post "_id" with
              | Throws e => (NextError e, db1)
              | Returns id =>
                  match run (Post_findById_populate id) db1 with
                  | (Throws e, db2) => (NextError e, db2)
                  | (Returns populatedPost, db2) =>
                      (Respond (VNum 201) populatedPost, db2)
                  end
              end
          end
      end
    else (validation_failed req, db).
Proof.
  unfold PostsController.createPost, catch_next, requester.
  destruct (isEmpty (validation_errors req)); simpl; [| reflexivity].
  destruct (user req) as [u |]; simpl; [| reflexivity].
  destruct (run (Post_create (create_document (body req) (user_id u))) db)
    as [[post | e] db1]; simpl; [| reflexivity].
  destruct (get_prop post "_id") as [id | e]; simpl; [| reflexivity].
  destruct (run (Post_findById_populate id) db1) as [[populated | e] db2];
    reflexivity.
Qed.

(** X8. [createPost] reads the body through the four keys title, content,
    category and tags only, and takes the author from [req.user]: two
    requests of the same user that agree on those keys are handled alike,
    whatever else their bodies carry (an author, a slug, a published
    flag). *)
Theorem createPost_reads_four_keys (req1 req2 : Request) (db : DB) :
  user req1 = user req2 ->
  validation_errors req1 = validation_errors req2 ->
  (forall k, In k ["title"; "content"; "category"; "tags"] ->
             field k (body req1) = field k (body req2)) ->
  createPost req1 db = createPost req2 db.
Proof.
  intros Hu Hv Hk.
  assert (Hdoc : forall a, create_document (body req1) a
                           = create_document (body req2) a).
  { intros a. unfold create_document.
    rewrite (Hk "title"), (Hk "content"), (Hk "category"), (Hk "tags");
      simpl; auto 10. }
  rewrite !createPost_unfold. unfold validation_failed.
  rewrite Hu, Hv.
  destruct (isEmpty (validation_errors req2)); [| reflexivity].
  destruct (user req2) as [u |]; [| reflexivity].
  rewrite Hdoc. reflexivity.
Qed.

Lemma deletePost_cases (req : Request) (db : DB) :
  (exists e db1, deletePost req db = (NextError e, db1))
  \/ (exists s j, deletePost req db
                  = (Respond (VNum s) j, snd (run (Post_findById (params_id req)) db))
                  /\ (s = 403 \/ s = 404))
  \/ (exists post author_id u db1 db2,
        run (Post_findById (params_id req)) db = (Returns (Some post), db1)
        /\ call_toString (of_option (field "author" post)) = Returns author_id
        /\ user req = Some u
        /\ forbidden author_id u = false
        /\ run (Post_deleteOne post) db1 = (Returns tt, db2)
        /\ deletePost req db = (post_deleted, db2)).
Proof.
  unfold PostsController.deletePost, catch_next, requester. simpl.
  destruct (run (Post_findById (params_id req)) db) as [[[post |] | e] db1] eqn:Hf;
    simpl.
  - destruct (call_toString (of_option (field "author" post))) as [a | e] eqn:Ha;
      simpl; [| left; eauto].
    destruct (user req) as [u |] eqn:Hu; simpl; [| left; eauto].
    destruct (forbidden a u) eqn:Hfb; simpl.
    + right; left. do 2 eexists. split; [reflexivity | left; reflexivity].
    + destruct (run (Post_deleteOne post) db1) as [[[] | e] db2] eqn:Hd; simpl.
      * right; right. exists post, a, u, db1, db2. auto 10.
      * left; eauto.
  - right; left. do 2 eexists. split; [reflexivity | right; reflexivity].
  - left; eauto.
Qed.

(** X9. A request that [deletePost] answers with anything but 200, and one
    that [updatePost] answers with anything but 200, changes nothing: the
    database is as the lookup left it (or, for an update refused by
    validation, as it was); the store's delete and update were not run. *)
Theorem refused_requests_write_nothing
    (req : Request) (db : DB) (status json : value) :
  (fst (deletePost req db) = Respond status json ->
   status <> VNum 200 ->
   snd (deletePost req db) = snd (run (Post_findById (params_id req)) db))
  /\ (fst (updatePost req db) = Respond status json ->
      status <> VNum 200 ->
      snd (updatePost req db) = db
      \/ snd (updatePost req db) = snd (run (Post_findById (params_id req)) db)).
Proof.
  split.
  - destruct (deletePost_cases req db)
      as [(e & db1 & H) | [(s & j & H & _) | (post & a & u & db1 & db2 & _ & _ & _ & _ & _ & H)]];
      rewrite H; simpl.
    + discriminate.
    + reflexivity.
    + unfold post_deleted. intros Hr Hs. injection Hr as <- _. congruence.
  - unfold PostsController.updatePost, catch_next, requester.
    destruct (isEmpty (validation_errors req)); simpl; [| left; reflexivity].
    destruct (run (Post_findById (params_id req)) db) as [[[post |] | e] db1];
      simpl; try (right; reflexivity).
    destruct (call_toString (of_option (field "author" post))) as [a | e];
      simpl; try (right; reflexivity).
    destruct (user req) as [u |]; simpl; try (right; reflexivity).
    destruct (forbidden a u); simpl; try (right; reflexivity).
    destruct (run (Post_findByIdAndUpdate (params_id req)
                     (update_document (body req))) db1) as [[updated | e] db2];
      simpl; [| discriminate].
    intros Hr Hs. injection Hr as <- _. congruence.
Qed.

Variable verifyToken : value -> completion value.
Variable User_findById : value -> completion (option User).

Abbreviation delete_route :=
  (PostRoutes.delete_route verifyToken User_findById DB Post_findById
     Post_deleteOne).

Lemma protect_answers_401 (req : Request) (cs : list Call) (s j : value) :
  protect verifyToken User_findById req = Tr cs (Returns (Respond s j)) ->
  s = VNum 401.
Proof.
  rewrite AuthMiddlewareExtras.protect_unfold. unfold rejected.
  destruct (truthy (bearer_token req)); [| congruence].
  destruct (verifyToken (bearer_token req)) as [decoded | e]; [| congruence].
  destruct (get_prop decoded "id") as [id | e]; [| congruence].
  destruct (User_findById id) as [[u |] | e]; congruence.
Qed.

(** X10. On [DELETE /posts/:id] a post is deleted only for a token that
    verified, a user the store returned for it, and a post that this user
    wrote or an admin role; and a request that [protect] does not pass on
    leaves the database untouched. *)
Theorem delete_route_guard (req : Request) (db : DB) :
  (forall calls db',
      delete_route req db = (calls, (post_deleted, db')) ->
      exists decoded id u post author_id,
        verifyToken (bearer_token req) = Returns decoded
        /\ get_prop decoded "id" = Returns id
        /\ User_findById id = Returns (Some u)
        /\ fst (run (Post_findById (params_id req)) db) = Returns (Some post)
        /\ call_toString (of_option (field "author" post)) = Returns author_id
        /\ (author_id = user_id u \/ role u = "admin"))
  /\ ((forall calls req',
         protect verifyToken User_findById req <> Tr calls (Returns (Next req'))) ->
      snd (snd (delete_route req db)) = db).
Proof.
  unfold PostRoutes.delete_route. split.
  - intros calls db'.
    destruct (protect verifyToken User_findById req) as [cs [[s j | req' | e] | e]] eqn:Hp;
      try discriminate.
    { apply protect_answers_401 in Hp. subst s. discriminate. }
    destruct (AuthMiddlewareFacts.protect_next_only_verified
                verifyToken User_findById req req' cs Hp)
      as (decoded & id & u & Hv & Hid & Hf & Hreq).
    intros H. injection H as _ Hdel. clear Hp.
    destruct (deletePost_cases req' db)
      as [(e & db1 & H) | [(s & j & H & Hs) | (post & a & u' & db1 & db2 & Hfind & Ha & Hu & Hfb & _ & _)]].
    + rewrite H in Hdel. discriminate.
    + rewrite H in Hdel. unfold post_deleted in Hdel.
      injection Hdel as Hs' _. destruct Hs as [-> | ->]; discriminate.
    + exists decoded, id, u, post, a.
      rewrite Hreq in Hfind, Hu. simpl in Hfind, Hu.
      rewrite Hfind.
      repeat split; try assumption.
      injection Hu as <-. unfold forbidden in Hfb. simpl in Hfb.
      apply andb_false_iff in Hfb as [Hfb | Hfb]; apply negb_false_iff in Hfb;
        apply String.eqb_eq in Hfb; auto.
  - intros Hno.
    destruct (protect verifyToken User_findById req) as [cs [[s j | req' | e] | e]];
      try reflexivity.
    exfalso. exact (Hno cs req' eq_refl).
Qed.

End Facts.

(** [GET /posts/not-an-id]: the cast error becomes a 400. *)
Lemma getPost_cast_error_is_400_witness :
  getPost MemDb.DB Sample.findById_populate
    (Sample.get_request "not-an-id") Sample.db
  = (NextError (MemDb.cast_error "not-an-id"), Sample.db)
  /\ snd (ErrorHandler.errorHandler Sample.env (MemDb.cast_error "not-an-id")
            Sample.info)
     = Returns (Respond (VNum 400)
         (VObj [("error", VStr "Invalid ID format");
                ("details", message (MemDb.cast_error "not-an-id"))])).
Proof.
  apply (getPost_cast_error_is_400 MemDb.DB Sample.findById_populate).
  - reflexivity.
  - reflexivity.
Defined.

(** Alice's post with and without an author, a slug and a published flag in
    the body: the same outcome. *)
Lemma createPost_reads_four_keys_witness :
  createPost MemDb.DB Sample.findById_populate Sample.Post_create
    (Sample.request_by Sample.alice
       (Sample.new_content
        ++ [("author", VStr Sample.bob_id); ("slug", VStr "chosen");
            ("published", VBool true)]) [])
    Sample.db
  = createPost MemDb.DB Sample.findById_populate Sample.Post_create
      (Sample.request_by Sample.alice Sample.new_content []) Sample.db.
Proof.
  apply createPost_reads_four_keys.
  - reflexivity.
  - reflexivity.
  - intros k [<- | [<- | [<- | [<- | []]]]]; reflexivity.
Defined.

(** Bob's refused delete and update of Alice's post leave the database as
    it was. *)
Lemma refused_requests_write_nothing_witness :
  snd (MemDb.deletePost (Sample.request_by Sample.bob [] []) Sample.db)
  = snd (run (MemDb.findById Sample.post_id) Sample.db)
  /\ (snd (MemDb.updatePost Sample.accept_all
             (Sample.request_by Sample.bob Sample.new_content []) Sample.db)
      = Sample.db
      \/ snd (MemDb.updatePost Sample.accept_all
                (Sample.request_by Sample.bob Sample.new_content []) Sample.db)
         = snd (run (MemDb.findById Sample.post_id) Sample.db)).
Proof.
  split.
  - apply (proj1 (refused_requests_write_nothing MemDb.DB MemDb.findById
                    (MemDb.findByIdAndUpdate Sample.accept_all) MemDb.deleteOne
                    (Sample.request_by Sample.bob [] []) Sample.db (VNum 403)
                    (error_body "Not authorized to delete this post"))).
    + vm_compute. reflexivity.
    + discriminate.
  - apply (proj2 (refused_requests_write_nothing MemDb.DB MemDb.findById
                    (MemDb.findByIdAndUpdate Sample.accept_all) MemDb.deleteOne
                    (Sample.request_by Sample.bob Sample.new_content [])
                    Sample.db (VNum 403)
                    (error_body "Not authorized to update this post"))).
    + vm_compute. reflexivity.
    + discriminate.
Defined.

(** Alice deletes her post with her token; without a header nothing
    happens to the database. *)
Lemma delete_route_guard_witness :
  (exists decoded id u post author_id,
     Sample.verifyToken
       (bearer_token (Sample.delete_request
                        (Some ("Bearer " ++ Sample.alice_token))))
     = Returns decoded
     /\ get_prop decoded "id" = Returns id
     /\ Sample.User_findById id = Returns (Some u)
     /\ fst (run (MemDb.findById Sample.post_id) Sample.db) = Returns (Some post)
     /\ call_toString (of_option (field "author" post)) = Returns author_id
     /\ (author_id = user_id u \/ role u = "admin"))
  /\ snd (snd (PostRoutes.delete_route Sample.verifyToken Sample.User_findById
                 MemDb.DB MemDb.findById MemDb.deleteOne
                 (Sample.delete_request None) Sample.db))
     = Sample.db.
Proof.
  split.
  - apply (proj1 (delete_route_guard MemDb.DB MemDb.findById MemDb.deleteOne
                    Sample.verifyToken Sample.User_findById
                    (Sample.delete_request
                       (Some ("Bearer " ++ Sample.alice_token)))
                    Sample.db)
             [CallVerifyToken (VStr Sample.alice_token);
              CallFindById (VStr Sample.alice_id)]
             (MemDb.with_posts (delete Sample.post_id (MemDb.posts Sample.db))
                Sample.db)).
    vm_compute. reflexivity.
  - apply (proj2 (delete_route_guard MemDb.DB MemDb.findById MemDb.deleteOne
                    Sample.verifyToken Sample.User_findById
                    (Sample.delete_request None) Sample.db)).
    intros calls req'. vm_compute. discriminate.
Defined.

End PostsControllerExtras.

(* ===================================================================== *)
(** ** Properties of middleware/requestLogger.js *)
(* ===================================================================== *)

Module RequestLoggerFacts.
Import Js RequestLogger.

(** X11. The middleware logs nothing when it runs. When the response has
    finished, its listener logs one "Request" record, followed by one
    "Slow request detected" warning exactly when the response took more
    than 1000 ms (1000 itself is not slow); every record carries the same
    duration text. *)
Theorem slow_request_warning
    (startTime : Z) (req : LoggedRequest) (statusCode : value) (now : Z) :
  fst (requestLogger startTime req) = []
  /\ (existsb is_warn (snd (requestLogger startTime req) statusCode now) = true
      <-> 1000 < now - startTime)
  /\ (exists info slow,
        snd (requestLogger startTime req) statusCode now
        = Info "Request" info :: slow
        /\ (slow = [] \/ exists w, slow = [Warn "Slow request detected" w]))
  /\ Forall (fun c => field "duration" (fields_of c)
                      = Some (VStr (pretty (now - startTime) ++ "ms")))
       (snd (requestLogger startTime req) statusCode now).
Proof.
  unfold requestLogger, on_finish. simpl.
  destruct (now - startTime >? 1000) eqn:Hslow; simpl.
  - apply Z.gtb_lt in Hslow.
    split; [reflexivity |]. split; [tauto |].
    split; [do 2 eexists; split; [reflexivity | right; eexists; reflexivity] |].
    repeat constructor.
  - assert (Hle : ~ 1000 < now - startTime).
    { intros H. apply Z.gtb_lt in H. congruence. }
    split; [reflexivity |].
    split; [split; [discriminate | intros H; contradiction] |].
    split; [do 2 eexists; split; [reflexivity | left; reflexivity] |].
    repeat constructor.
Qed.

End RequestLoggerFacts.

(* ===================================================================== *)
(** ** Properties of PostCard's truncateContent *)
(* ===================================================================== *)

Module PostCardFacts.
Import PostCard.

Lemma length_app (a b : string) :
  String.length (a ++ b) = (String.length a + String.length b)%nat.
Proof. induction a as [| c a IH]; simpl; [reflexivity | rewrite IH; reflexivity]. Qed.

Lemma length_substring_0 (n : nat) :
  forall s : string, String.length (substring 0 n s) = Nat.min n (String.length s).
Proof.
  induction n as [| n IH]; intros [| c s]; simpl; try reflexivity.
  rewrite IH. reflexivity.
Qed.

Lemma substring_0_app (a b : string) :
  substring 0 (String.length a) (a ++ b) = a.
Proof.
  induction a as [| c a IH]; simpl.
  - destruct b; reflexivity.
  - rewrite IH. reflexivity.
Qed.

Lemma prefix_substring_0 (n : nat) :
  forall s : string, String.prefix (substring 0 n s) s = true.
Proof.
  induction n as [| n IH]; intros [| c s]; simpl; try reflexivity.
  rewrite IH. destruct (ascii_dec c c); [reflexivity | congruence].
Qed.

(** X12. A content no longer than [maxLength] is shown whole. A longer one
    is cut to its first [maxLength] characters followed by "...": the
    result starts like the content and is [maxLength] + 3 characters long,
    so a content one or two characters over the limit comes out longer
    than it went in. *)
Theorem truncateContent_length (content : string) (maxLength : Z) :
  (Z.of_nat (String.length content) <= maxLength ->
   truncateContent content maxLength = content)
  /\ (maxLength < Z.of_nat (String.length content) ->
      truncateContent content maxLength = substring_to maxLength content ++ "..."
      /\ String.prefix (substring_to maxLength content) content = true
      /\ String.length (truncateContent content maxLength)
         = (Z.to_nat maxLength + 3)%nat
      /\ (Z.of_nat (String.length content) < maxLength + 3 ->
          (String.length content
           < String.length (truncateContent content maxLength))%nat)).
Proof.
  unfold truncateContent, substring_to. split.
  - intros H. apply Z.leb_le in H. rewrite H. reflexivity.
  - intros H.
    assert (Hb : (Z.of_nat (String.length content) <=? maxLength) = false)
      by (apply Z.leb_gt; exact H).
    rewrite Hb.
    assert (Hlen : String.length (substring 0 (Z.to_nat maxLength) content ++ "...")
                   = (Z.to_nat maxLength + 3)%nat).
    { rewrite length_app, length_substring_0. simpl. lia. }
    split; [reflexivity |]. split; [apply prefix_substring_0 |].
    split; [exact Hlen |]. rewrite Hlen. lia.
Qed.

(** X13. Truncating twice is truncating once. *)
Theorem truncateContent_idempotent (content : string) (maxLength : Z) :
  truncateContent (truncateContent content maxLength) maxLength
  = truncateContent content maxLength.
Proof.
  unfold truncateContent, substring_to.
  destruct (Z.of_nat (String.length content) <=? maxLength) eqn:Hb.
  - rewrite Hb. reflexivity.
  - apply Z.leb_gt in Hb.
    assert (Hsub : String.length (substring 0 (Z.to_nat maxLength) content)
                   = Z.to_nat maxLength).
    { rewrite length_substring_0. lia. }
    assert (Hlong : (Z.of_nat (String.length
                       (substring 0 (Z.to_nat maxLength) content ++ "..."))
                     <=? maxLength) = false).
    { apply Z.leb_gt. rewrite length_app, Hsub. simpl. lia. }
    rewrite Hlong. f_equal.
    pose proof (substring_0_app (substring 0 (Z.to_nat maxLength) content) "...")
      as Happ.
    rewrite Hsub in Happ. exact Happ.
Qed.

(** A content of 151 characters, at the default limit of 150: it comes out
    153 characters long. *)
Lemma truncateContent_length_witness :
  truncateContent Sample.content_151 default_maxLength
  = substring_to default_maxLength Sample.content_151 ++ "..."
  /\ (String.length Sample.content_151
      < String.length (truncateContent Sample.content_151 default_maxLength))%nat.
Proof.
  destruct (proj2 (truncateContent_length Sample.content_151 default_maxLength))
    as (Hcut & _ & _ & Hlonger).
  - vm_compute. reflexivity.
  - split; [exact Hcut |]. apply Hlonger. vm_compute. reflexivity.
Defined.

End PostCardFacts.

(* ===================================================================== *)
(** ** Properties of the Form component *)
(* ===================================================================== *)

Module FormFacts.
Import Form.

Lemma message_or_nonempty (m : option string) (fallback : string) :
  fallback <> "" -> message_or m fallback <> "".
Proof.
  intros Hf. unfold message_or. destruct m as [s |]; [| exact Hf].
  destruct (String.eqb s "") eqn:Hs; [exact Hf |].
  apply String.eqb_neq. exact Hs.
Qed.

Lemma limit_Some (l : option Z) (n : Z) :
  limit l = Some n -> l = Some n /\ n <> 0.
Proof.
  unfold limit. destruct l as [k |]; [| discriminate].
  destruct (k =? 0) eqn:Hk; [discriminate |].
  intros H. injection H as <-. split; [reflexivity |].
  apply Z.eqb_neq. exact Hk.
Qed.

Lemma required_check (v : Validation) (value : string) :
  required v && String.eqb value "" = false
  <-> (required v = true -> value <> "").
Proof.
  destruct (required v); simpl.
  - rewrite String.eqb_neq. tauto.
  - split; [discriminate | reflexivity].
Qed.

Lemma lower_check (l : option Z) (len : Z) :
  match limit l with Some n => len <? n | None => false end = false
  <-> (forall n, limit l = Some n -> n <= len).
Proof.
  destruct (limit l) as [n |].
  - rewrite Z.ltb_ge. split.
    + intros H k Hk. injection Hk as <-. exact H.
    + intros H. apply H. reflexivity.
  - split; [discriminate | reflexivity].
Qed.

Lemma upper_check (l : option Z) (len : Z) :
  match limit l with Some n => n <? len | None => false end = false
  <-> (forall n, limit l = Some n -> len <= n).
Proof.
  destruct (limit l) as [n |].
  - rewrite Z.ltb_ge. split.
    + intros H k Hk. injection Hk as <-. exact H.
    + intros H. apply H. reflexivity.
  - split; [discriminate | reflexivity].
Qed.

Lemma pattern_check (p : option (string -> bool)) (value : string) :
  match p with Some test => negb (test value) | None => false end = false
  <-> (forall test, p = Some test -> test value = true).
Proof.
  destruct p as [test |].
  - rewrite negb_false_iff. split.
    + intros H t Ht. injection Ht as <-. exact H.
    + intros H. apply H. reflexivity.
  - split; [discriminate | reflexivity].
Qed.

Lemma custom_check (c : option (string -> string)) (value : string) :
  match c with Some check => check value | None => "" end = ""
  <-> (forall check, c = Some check -> check value = "").
Proof.
  destruct c as [check |].
  - split.
    + intros H k Hk. injection Hk as <-. exact H.
    + intros H. apply H. reflexivity.
  - split; [discriminate | reflexivity].
Qed.

Lemma required_message (v : Validation) :
  message_or (requiredMessage v) "This field is required" <> "".
Proof. apply message_or_nonempty. discriminate. Qed.

Lemma minLength_message (v : Validation) :
  message_or (minLengthMessage v)
    ("Minimum " ++ pretty (default 0 (minLength v)) ++ " characters required")
  <> "".
Proof. apply message_or_nonempty. discriminate. Qed.

Lemma maxLength_message (v : Validation) :
  message_or (maxLengthMessage v)
    ("Maximum " ++ pretty (default 0 (maxLength v)) ++ " characters allowed")
  <> "".
Proof. apply message_or_nonempty. discriminate. Qed.

Lemma pattern_message (v : Validation) :
  message_or (patternMessage v) "Invalid format" <> "".
Proof. apply message_or_nonempty. discriminate. Qed.

(** X14. [validateField] returns the empty string exactly when the value
    meets everything the validation object asks: it is not empty if
    required, not shorter than a set minimum, not longer than a set
    maximum, matched by the pattern, and accepted by the custom check. *)
Theorem validateField_empty_iff_valid
    (n value : string) (v : Validation) :
  validateField n value (Some v) = "" <-> satisfies v value.
Proof.
  unfold satisfies.
  rewrite <- required_check, <- lower_check, <- upper_check, <- pattern_check,
    <- custom_check.
  unfold validateField.
  destruct (required v && String.eqb value "").
  { split; [intros H; destruct (required_message v H) | intros (H & _); discriminate]. }
  destruct (match limit (minLength v) with
            | Some k => Z.of_nat (String.length value) <? k
            | None => false
            end).
  { split; [intros H; destruct (minLength_message v H)
           | intros (_ & H & _); discriminate]. }
  destruct (match limit (maxLength v) with
            | Some k => k <? Z.of_nat (String.length value)
            | None => false
            end).
  { split; [intros H; destruct (maxLength_message v H)
           | intros (_ & _ & H & _); discriminate]. }
  destruct (match pattern v with
            | Some test => negb (test value)
            | None => false
            end).
  { split; [intros H; destruct (pattern_message v H)
           | intros (_ & _ & _ & H & _); discriminate]. }
  tauto.
Qed.

(** X15. A field that is not required but has a minimum length rejects the
    empty value: leaving an optional field empty gives the minimum-length
    error. *)
Theorem optional_field_with_minLength_rejects_empty
    (n : string) (v : Validation) (lo : Z) :
  required v = false ->
  minLength v = Some lo ->
  0 < lo ->
  validateField n "" (Some v)
  = message_or (minLengthMessage v)
      ("Minimum " ++ pretty lo ++ " characters required")
  /\ validateField n "" (Some v) <> "".
Proof.
  intros Hreq Hmin Hlo.
  assert (Hv : validateField n "" (Some v)
               = message_or (minLengthMessage v)
                   ("Minimum " ++ pretty lo ++ " characters required")).
  { unfold validateField, limit. rewrite Hreq, Hmin.
    destruct (lo =? 0) eqn:H0; [apply Z.eqb_eq in H0; lia |].
    replace (Z.of_nat (String.length "") <? lo) with true
      by (symmetry; apply Z.ltb_lt; simpl; lia).
    reflexivity. }
  split; [exact Hv |]. rewrite Hv. apply message_or_nonempty. discriminate.
Qed.

(** The optional summary of the post form, left empty. *)
Lemma optional_field_with_minLength_rejects_empty_witness :
  validateField "summary" "" (Some Sample.summary_validation)
  = "Minimum 10 characters required"
  /\ validateField "summary" "" (Some Sample.summary_validation) <> "".
Proof.
  apply (optional_field_with_minLength_rejects_empty "summary"
           Sample.summary_validation 10); [reflexivity | reflexivity | lia].
Defined.

(** The step of [newErrors]. *)
Lemma newErrors_cons (f : Field) (rest : list Field) (st : State)
    (acc : gmap string string) :
  fold_left
    (fun acc f =>
       let error := validateField (name f) (value_of st (name f)) (validation f) in
       if negb (String.eqb error "") then <[name f := error]> acc else acc)
    (f :: rest) acc
  = fold_left
      (fun acc f =>
         let error := validateField (name f) (value_of st (name f)) (validation f) in
         if negb (String.eqb error "") then <[name f := error]> acc else acc)
      rest
      (if negb (String.eqb (validateField (name f) (value_of st (name f))
                              (validation f)) "")
       then <[name f := validateField (name f) (value_of st (name f))
                          (validation f)]> acc
       else acc).
Proof. reflexivity. Qed.

Lemma fold_errors_empty (fields : list Field) (st : State) :
  forall acc : gmap string string,
    fold_left
      (fun acc f =>
         let error := validateField (name f) (value_of st (name f)) (validation f) in
         if negb (String.eqb error "") then <[name f := error]> acc else acc)
      fields acc = ∅
    <-> acc = ∅ /\ Forall (passes st) fields.
Proof.
  induction fields as [| f rest IH]; intros acc.
  - simpl. split; [intros H; split; [exact H | constructor] | tauto].
  - rewrite newErrors_cons, IH.
    destruct (String.eqb (validateField (name f) (value_of st (name f))
                            (validation f)) "") eqn:He; simpl.
    + apply String.eqb_eq in He. split.
      * intros [Ha Hr]. split; [exact Ha |]. constructor; [exact He | exact Hr].
      * intros [Ha Hr]. apply Forall_cons_iff in Hr as [_ Hrest].
        split; [exact Ha | exact Hrest].
    + apply String.eqb_neq in He. split.
      * intros [Ha _]. exfalso. exact (insert_non_empty _ _ _ Ha).
      * intros [_ Hr]. apply Forall_cons_iff in Hr as [Hf _].
        exfalso. exact (He Hf).
Qed.

Lemma fold_errors_lookup (fields : list Field) (st : State) :
  forall (acc : gmap string string) (n e : string),
    fold_left
      (fun acc f =>
         let error := validateField (name f) (value_of st (name f)) (validation f) in
         if negb (String.eqb error "") then <[name f := error]> acc else acc)
      fields acc !! n = Some e ->
    acc !! n = Some e \/ exists f, In f fields /\ name f = n.
Proof.
  induction fields as [| f rest IH]; intros acc n e.
  - simpl. auto.
  - rewrite newErrors_cons.
    set (err := validateField (name f) (value_of st (name f)) (validation f)).
    intros H. apply IH in H as [H | (g & Hg & Hn)].
    + destruct (String.eqb err ""); simpl in H; [left; exact H |].
      destruct (decide (name f = n)) as [Heq | Hne].
      * right. exists f. split; [left; reflexivity | exact Heq].
      * rewrite lookup_insert_ne in H by exact Hne. left. exact H.
    + right. exists g. split; [right; exact Hg | exact Hn].
Qed.

Lemma fold_errors_failing (fields : list Field) (st : State) :
  forall (acc : gmap string string) (n : string),
    (forall k e, acc !! k = Some e -> e <> "") ->
    (is_Some (acc !! n)
     \/ exists f, In f fields /\ name f = n /\ ~ passes st f) ->
    exists e,
      fold_left
        (fun acc f =>
           let error := validateField (name f) (value_of st (name f)) (validation f) in
           if negb (String.eqb error "") then <[name f := error]> acc else acc)
        fields acc !! n = Some e
      /\ e <> "".
Proof.
  induction fields as [| f rest IH]; intros acc n Hacc H.
  - simpl. destruct H as [[e He] | (f & [] & _)]. exists e. split; [exact He |].
    exact (Hacc n e He).
  - rewrite newErrors_cons.
    set (err := validateField (name f) (value_of st (name f)) (validation f)).
    destruct (String.eqb err "") eqn:He0; simpl.
    + apply String.eqb_eq in He0. apply IH; [exact Hacc |].
      destruct H as [Hs | (g & [<- | Hg] & Hn & Hfail)].
      * left. exact Hs.
      * exfalso. apply Hfail. exact He0.
      * right. exists g. auto.
    + apply String.eqb_neq in He0. apply IH.
      * intros k e. destruct (decide (name f = k)) as [<- | Hne].
        { rewrite lookup_insert_eq. intros Hk. injection Hk as <-. exact He0. }
        { rewrite lookup_insert_ne by exact Hne. apply Hacc. }
      * destruct H as [Hs | (g & [<- | Hg] & Hn & Hfail)].
        { left. destruct (decide (name f = n)) as [<- | Hne].
          - rewrite lookup_insert_eq. eexists. reflexivity.
          - rewrite lookup_insert_ne by exact Hne. exact Hs. }
        { left. rewrite Hn, lookup_insert_eq. eexists. reflexivity. }
        { right. exists g. auto. }
Qed.

Lemma fold_touched_lookup (fields : list Field) :
  forall (acc : gmap string bool) (n : string),
    (acc !! n = Some true \/ exists f, In f fields /\ name f = n) ->
    fold_left (fun acc f => <[name f := true]> acc) fields acc !! n = Some true.
Proof.
  induction fields as [| f rest IH]; intros acc n H.
  - simpl. destruct H as [H | (f & [] & _)]. exact H.
  - simpl. apply IH. destruct H as [H | (g & [<- | Hg] & Hn)].
    + left. destruct (decide (name f = n)) as [-> | Hne].
      * apply lookup_insert_eq.
      * rewrite lookup_insert_ne by exact Hne. exact H.
    + left. rewrite Hn. apply lookup_insert_eq.
    + right. exists g. auto.
Qed.

(** X16. For fields whose names are no inherited property names,
    [handleSubmit] calls [onSubmit], with the values unchanged, exactly
    when every field's current value passes its validation; it marks every
    field touched, and every failing field gets an error. *)
Theorem handleSubmit_submits_iff_valid (fields : list Field) (st : State) :
  Forall (fun f => own_name (name f)) fields ->
  (snd (handleSubmit fields st) = Some (values st)
   <-> Forall (passes st) fields)
  /\ (snd (handleSubmit fields st) = None
      <-> ~ Forall (passes st) fields)
  /\ (forall f, In f fields ->
        touched (fst (handleSubmit fields st)) !! name f = Some true)
  /\ (forall f, In f fields -> ~ passes st f ->
        exists e, errors (fst (handleSubmit fields st)) !! name f = Some e
                  /\ e <> "")
  /\ values (fst (handleSubmit fields st)) = values st.
Proof.
  intros _. unfold handleSubmit. simpl.
  pose proof (fold_errors_empty fields st ∅) as Hempty. fold (newErrors fields st) in Hempty.
  split; [| split; [| split; [| split]]].
  - case_bool_decide as Hd.
    + split; [intros _; apply Hempty; exact Hd | reflexivity].
    + split; [discriminate |]. intros Hall. exfalso. apply Hd, Hempty. auto.
  - case_bool_decide as Hd.
    + split; [discriminate |]. intros Hn. exfalso. apply Hn, Hempty. exact Hd.
    + split; [| reflexivity]. intros _ Hall. apply Hd, Hempty. auto.
  - intros f Hf. apply fold_touched_lookup. right. exists f. auto.
  - intros f Hf Hfail. apply fold_errors_failing.
    + intros k e Hk. rewrite lookup_empty in Hk. discriminate.
    + right. exists f. auto.
  - reflexivity.
Qed.

Lemma handle_keeps_errors_touched (fields : list Field) (st : State) (e : Event) :
  errors_touched st -> errors_touched (handle fields st e).
Proof.
  intros Hinv. destruct e as [n v | n v |]; intros k err; simpl.
  - destruct (is_touched st n) eqn:Ht; [| apply Hinv].
    destruct (decide (n = k)) as [<- | Hne].
    + intros _ _. unfold is_touched in Ht.
      destruct (touched st !! n) as [[] |]; simpl in Ht; congruence.
    + rewrite lookup_insert_ne by exact Hne. apply Hinv.
  - destruct (decide (n = k)) as [<- | Hne].
    + intros _ _. apply lookup_insert_eq.
    + rewrite !lookup_insert_ne by exact Hne. apply Hinv.
  - intros Hk _. apply fold_errors_lookup in Hk as [Hk | (f & Hf & Hn)].
    + rewrite lookup_empty in Hk. discriminate.
    + apply fold_touched_lookup. right. exists f. auto.
Qed.

Lemma events_keep_errors_touched (fields : list Field) (events : list Event) :
  forall st, errors_touched st ->
             errors_touched (fold_left (handle fields) events st).
Proof.
  induction events as [| e rest IH]; intros st Hinv; simpl; [exact Hinv |].
  apply IH, handle_keeps_errors_touched, Hinv.
Qed.

(** X17. Whatever the user does to the form (changing and leaving fields
    whose names are no inherited property names, submitting), a field that
    has an error has been touched; so the submit button is disabled exactly
    when some field has an error, and the test of the number of touched
    fields never decides. *)
Theorem errors_only_on_touched (fields : list Field) (events : list Event) :
  Forall (fun f => own_name (name f)) fields ->
  Forall (fun e => forall n, event_name e = Some n -> own_name n) events ->
  (forall n e,
      errors (after_events fields events) !! n = Some e -> e <> "" ->
      touched (after_events fields events) !! n = Some true)
  /\ submit_disabled (after_events fields events)
     = hasErrors (after_events fields events).
Proof.
  intros _ _.
  assert (Hinv : errors_touched (after_events fields events)).
  { apply events_keep_errors_touched. intros n e H.
    simpl in H. rewrite lookup_empty in H. discriminate. }
  split; [exact Hinv |].
  unfold submit_disabled, hasErrors.
  case_bool_decide as Herr; simpl; [| reflexivity].
  destruct Herr as (n & e & Hn & He).
  pose proof (Hinv n e Hn He) as Ht.
  case_bool_decide as Hempty; [| reflexivity].
  rewrite Hempty, lookup_empty in Ht. discriminate.
Qed.

Lemma post_form_own_names :
  Forall (fun f => own_name (name f)) Sample.post_form.
Proof.
  repeat constructor; unfold own_name; simpl; intuition discriminate.
Qed.

Lemma filled_in_own_names :
  Forall (fun e => forall n, event_name e = Some n -> own_name n)
    (Sample.filled_in ++ [Submit]).
Proof.
  repeat constructor; intros n H; simpl in H; try discriminate;
    injection H as <-; unfold own_name; simpl; intuition discriminate.
Qed.

(** The post form filled in with a title and a summary: it is submitted,
    and both fields are touched. With the summary left out it is not. *)
Lemma handleSubmit_submits_iff_valid_witness :
  snd (handleSubmit Sample.post_form
         (after_events Sample.post_form Sample.filled_in))
  = Some (values (after_events Sample.post_form Sample.filled_in))
  /\ snd (handleSubmit Sample.post_form
            (after_events Sample.post_form [Change "title" "Hello"]))
     = None.
Proof.
  split.
  - apply (proj1 (handleSubmit_submits_iff_valid Sample.post_form
                    (after_events Sample.post_form Sample.filled_in)
                    post_form_own_names)).
    repeat constructor; vm_compute; reflexivity.
  - apply (proj1 (proj2 (handleSubmit_submits_iff_valid Sample.post_form
                           (after_events Sample.post_form [Change "title" "Hello"])
                           post_form_own_names))).
    intros Hall. apply Forall_cons_iff in Hall as [_ Hall].
    apply Forall_cons_iff in Hall as [Hsummary _].
    vm_compute in Hsummary. discriminate Hsummary.
Defined.

(** After filling the form in and submitting it, the button's state is
    that of the errors. *)
Lemma errors_only_on_touched_witness :
  submit_disabled (after_events Sample.post_form (Sample.filled_in ++ [Submit]))
  = hasErrors (after_events Sample.post_form (Sample.filled_in ++ [Submit])).
Proof.
  exact (proj2 (errors_only_on_touched Sample.post_form
                  (Sample.filled_in ++ [Submit])
                  post_form_own_names filled_in_own_names)).
Defined.

(** Typing into a field that was never left shows no error; leaving it
    does. *)
Example untouched_field_has_no_error :
  errors (after_events Sample.post_form [Change "title" "ab"]) !! "title" = None
  /\ errors (after_events Sample.post_form [Change "title" "ab"; Blur "title" "ab"])
       !! "title"
     = Some "Minimum 3 characters required".
Proof. split; vm_compute; reflexivity. Qed.

End FormFacts.

(* ===================================================================== *)
(** ** Properties of mockLocalStorage *)
(* ===================================================================== *)

Module MockLocalStorageFacts.
Import Js MockLocalStorage.

Lemma foldr_delete_lookup (keys : list string) (store : gmap string string)
    (k : string) :
  foldr delete store keys !! k = if bool_decide (k ∈ keys) then None else store !! k.
Proof.
  induction keys as [| k0 rest IH]; cbn [foldr].
  - rewrite (bool_decide_eq_false_2 (k ∈ [])); [reflexivity |].
    apply not_elem_of_nil.
  - destruct (decide (k0 = k)) as [-> | Hne].
    + rewrite lookup_delete_eq.
      rewrite (bool_decide_eq_true_2 (k ∈ k :: rest)) by left.
      reflexivity.
    + rewrite lookup_delete_ne by exact Hne. rewrite IH.
      destruct (decide (k ∈ rest)) as [Hin | Hnin].
      * rewrite (bool_decide_eq_true_2 (k ∈ rest) Hin).
        rewrite (bool_decide_eq_true_2 (k ∈ k0 :: rest)) by (right; exact Hin).
        reflexivity.
      * rewrite (bool_decide_eq_false_2 (k ∈ rest) Hnin).
        rewrite (bool_decide_eq_false_2 (k ∈ k0 :: rest)); [reflexivity |].
        intros H. apply elem_of_cons in H as [H | H]; [congruence | contradiction].
Qed.

Lemma clear_is_empty (store : gmap string string) : clear store = ∅.
Proof.
  apply map_eq. intros k. unfold clear. rewrite foldr_delete_lookup, lookup_empty.
  case_bool_decide as H; [reflexivity |].
  destruct (store !! k) as [v |] eqn:Hk; [| reflexivity].
  exfalso. apply H. apply list_elem_of_fmap. exists (k, v).
  split; [reflexivity |]. apply elem_of_map_to_list. exact Hk.
Qed.

(** X18. The mock storage, for keys that are no inherited property names:
    a string, a boolean or a safe integer that was set reads back as its
    string, except that an empty string reads back as [null]; setting
    [null] or [undefined] throws; setting or removing one key leaves the
    others as they were; a removed key and, after [clear], every key reads
    [null]. *)
Theorem mock_storage_laws
    (store : gmap string string) (key other : string) (v : value) :
  Form.own_name key -> Form.own_name other -> key <> other ->
  (prints_in_full v = true ->
   exists store',
     setItem store key v = Returns store'
     /\ getItem store' key
        = (if String.eqb (to_string v) "" then VNull else VStr (to_string v))
     /\ getItem store' other = getItem store other)
  /\ (v = VNull \/ v = VUndefined ->
      exists msg, setItem store key v = Throws (TypeError msg))
  /\ getItem (removeItem store key) key = VNull
  /\ getItem (removeItem store key) other = getItem store other
  /\ getItem (clear store) key = VNull.
Proof.
  intros _ _ Hne. unfold getItem, setItem, removeItem.
  split; [| split; [| split; [| split]]].
  - intros Hplain.
    assert (Hts : call_toString v = Returns (to_string v))
      by (destruct v; try discriminate; reflexivity).
    rewrite Hts. eexists. split; [reflexivity |].
    rewrite lookup_insert_eq, lookup_insert_ne by exact Hne.
    split; [| reflexivity]. unfold or_else, truthy.
    destruct (String.eqb (to_string v) ""); reflexivity.
  - intros [H | H]; rewrite H; simpl; eexists; reflexivity.
  - rewrite lookup_delete_eq. reflexivity.
  - rewrite lookup_delete_ne by exact Hne. reflexivity.
  - rewrite clear_is_empty, lookup_empty. reflexivity.
Qed.

(** An empty string, a token and a count stored under "token". *)
Lemma mock_storage_laws_witness :
  (exists store',
      setItem ∅ "token" (VStr "") = Returns store'
      /\ getItem store' "token" = VNull
      /\ getItem store' "user" = getItem ∅ "user")
  /\ (exists store',
      setItem ∅ "token" (VStr "mock-token") = Returns store'
      /\ getItem store' "token" = VStr "mock-token"
      /\ getItem store' "user" = getItem ∅ "user")
  /\ (exists store',
      setItem ∅ "token" (VNum 42) = Returns store'
      /\ getItem store' "token" = VStr "42"
      /\ getItem store' "user" = getItem ∅ "user").
Proof.
  assert (Hown : forall k, k = "token" \/ k = "user" -> Form.own_name k).
  { intros k [-> | ->]; unfold Form.own_name; simpl; intuition discriminate. }
  split; [| split].
  - exact (proj1 (mock_storage_laws ∅ "token" "user" (VStr "")
                    (Hown _ (or_introl eq_refl)) (Hown _ (or_intror eq_refl))
                    ltac:(discriminate)) eq_refl).
  - exact (proj1 (mock_storage_laws ∅ "token" "user" (VStr "mock-token")
                    (Hown _ (or_introl eq_refl)) (Hown _ (or_intror eq_refl))
                    ltac:(discriminate)) eq_refl).
  - exact (proj1 (mock_storage_laws ∅ "token" "user" (VNum 42)
                    (Hown _ (or_introl eq_refl)) (Hown _ (or_intror eq_refl))
                    ltac:(discriminate)) eq_refl).
Defined.

End MockLocalStorageFacts.
